(** * build_lib.py: the offline build script of the warp runtime libraries

    A shallow embedding of [build_lib.py].  The script is a straight-line
    program that talks to the outside (environment variables, the file
    system, GitPython, [subprocess.check_call], [warp.build]); here it is a
    computation in a small monad with

    - a mutable state: the attributes of the [warp.config] module and the
      part of the file system the script tests;
    - exceptions: [Exception] and [SystemExit], as Python raises them;
    - a log of every interaction with the outside, in program order.

    What the outside answers is read from a [World].  The collaborators
    ([warp.build], GitPython, cmake) are not part of the script: a call of
    one is logged with its arguments and answers what the world says, a
    value or an exception.  They are taken to leave alone the attributes of
    [warp.config] that the script assigns, and a clone that succeeds to
    leave its destination in place.  Lines 5-7 (the interpreter is
    Python 3) are taken for granted, and a run starts when
    [parser.parse_args()] of line 28 has returned its namespace, the [Args]
    below: the exits of [argparse] itself, on a command line that does not
    parse or on [-h], come before what is modelled. *)

From Stdlib Require Import String Ascii List Bool ZArith Lia.
Import ListNotations.
Local Open Scope string_scope.
Local Open Scope Z_scope.

(** ** Python values *)

(** A [str] attribute that may be [None]. *)
Definition pystr := option string.

(** Python truthiness of a [str]-or-[None] value: [None] and the empty
    string are false. *)
Definition truthy (v : pystr) : bool :=
  match v with
  | None => false
  | Some EmptyString => false
  | Some (String _ _) => true
  end.

(** [a or b]. *)
Definition py_or (a b : pystr) : pystr := if truthy a then a else b.

(** [a and b]. *)
Definition py_and (a b : pystr) : pystr := if truthy a then b else a.

Definition ascii_upper (c : ascii) : ascii :=
  let n := nat_of_ascii c in
  if (97 <=? n)%nat && (n <=? 122)%nat then ascii_of_nat (n - 32) else c.

Definition ascii_lower (c : ascii) : ascii :=
  let n := nat_of_ascii c in
  if (65 <=? n)%nat && (n <=? 90)%nat then ascii_of_nat (n + 32) else c.

Fixpoint str_lower (s : string) : string :=
  match s with
  | EmptyString => EmptyString
  | String c r => String (ascii_lower c) (str_lower r)
  end.

(** [str.capitalize()], on ASCII text: the first character in upper case,
    the others in lower case.  Characters outside ASCII are left as they
    are, which is not what Python does with them. *)
Definition capitalize (s : string) : string :=
  match s with
  | EmptyString => EmptyString
  | String c r => String (ascii_upper c) (str_lower r)
  end.

(** The double-quote character of the f-string on source line 155. *)
Definition dquote : string := String "034"%char EmptyString.

(** ** The command line *)

(** The [argparse] namespace of lines 18-28.  [type=bool] options hold a
    [bool]; [type=str] options without a default hold [None] when they are
    not given. *)
Record Args := {
  msvc_path : pystr;
  sdk_path : pystr;
  cuda_path : pystr;
  mode : string;
  verbose : bool;
  verify_fp : bool;
  fast_math : bool;
  quick : bool;
  build_llvm : bool
}.

(** The defaults of the parser. *)
Definition default_args : Args :=
  {| msvc_path := None; sdk_path := None; cuda_path := None;
     mode := "release"; verbose := true; verify_fp := false;
     fast_math := false; quick := false; build_llvm := false |}.

(** ** [warp.config] *)

(** The attributes of the module [warp.config] that the script reads or
    assigns. *)
Record WarpConfig := {
  cfg_verbose : bool;
  cfg_mode : string;
  cfg_verify_fp : bool;
  cfg_fast_math : bool;
  cfg_cuda_path : pystr;
  cfg_host_compiler : pystr
}.

(** ** The compile-and-link driver's arguments *)

(** The keyword arguments of one call of [warp.build.build_dll].  The call
    for [clang] passes no [quick], the call for [warp] passes no [libs]:
    those are [None] here. *)
Record BuildDllArgs := {
  dll_path : string;
  cpp_paths : list string;
  cu_path : pystr;
  libs : option (list string);
  bd_mode : string;
  bd_verify_fp : bool;
  bd_fast_math : bool;
  use_cache : bool;
  bd_quick : option bool
}.

(** ** Exceptions, events, the outside *)

Inductive exn :=
| Exception (msg : string)
| SystemExit (code : Z).

(** What an external call answers: a value, or an exception with its
    message. *)
Inductive answer (A : Type) :=
| Ok (a : A)
| Raise (msg : string).
Arguments Ok {A} a.
Arguments Raise {A} msg.

(** The interactions of the script with the outside. *)
Inductive event :=
| PrintArgs (a : Args)                          (* print(args) *)
| Print (line : string)                         (* print(...) *)
| EnvironGet (name : string)                    (* os.environ.get *)
| SetMsvcCompiler (msvc sdk : pystr)            (* warp.build.set_msvc_compiler *)
| FindHostCompiler                              (* warp.build.find_host_compiler *)
| PathExists (p : string)                       (* os.path.exists *)
| CloneFrom (url to_path : string) (single_branch : bool)
            (branch : string) (depth : Z)       (* Repo.clone_from *)
| RepoOpen (p : string)                         (* Repo(path) *)
| CheckCall (argv : list string)                (* subprocess.check_call *)
| Walk (top : string)                           (* os.walk *)
| BuildDll (d : BuildDllArgs).                  (* warp.build.build_dll *)

(** The outside of one run: the platform, and what each external call
    answers. *)
Record World := {
  sys_platform : string;
  os_name : string;
  os_path_join : string -> string -> string;
  (** [os.path.dirname(os.path.realpath(__file__))] *)
  base_path : string;
  environ : string -> pystr;
  (** the file system at the start of the run *)
  path_exists : string -> bool;
  (** the attributes of [warp.config] when the script starts *)
  config0 : WarpConfig;
  set_msvc_compiler_ans : pystr -> pystr -> answer unit;
  find_host_compiler_ans : answer pystr;
  clone_from_ans : answer unit;
  repo_open_ans : string -> answer unit;
  check_call_ans : list string -> answer unit;
  (** the file names of the first triple [os.walk] yields, [None] when it
      yields nothing *)
  walk_top : string -> option (list string);
  build_dll_ans : BuildDllArgs -> answer unit
}.

(** ** The monad *)

Record St := {
  config : WarpConfig;
  fs : string -> bool
}.

Record Run (A : Type) := {
  res : exn + A;
  st : St;
  evs : list event
}.
Arguments res {A} r.
Arguments st {A} r.
Arguments evs {A} r.

Definition M (A : Type) := St -> Run A.

Definition ret {A} (a : A) : M A :=
  fun s => {| res := inr a; st := s; evs := [] |}.

Definition bind {A B} (m : M A) (k : A -> M B) : M B :=
  fun s =>
    match m s with
    | {| res := inl e; st := s1; evs := t |} =>
        {| res := inl e; st := s1; evs := t |}
    | {| res := inr a; st := s1; evs := t |} =>
        match k a s1 with
        | {| res := r; st := s2; evs := t' |} =>
            {| res := r; st := s2; evs := t ++ t' |}
        end
    end.

Declare Scope py_scope.
Delimit Scope py_scope with py.
Notation "x <- m ;; k" := (bind m (fun x => k))
  (at level 61, m at next level, right associativity) : py_scope.
Notation "m ;; k" := (bind m (fun _ => k))
  (at level 61, right associativity) : py_scope.
Local Open Scope py_scope.

Definition raise {A} (e : exn) : M A :=
  fun s => {| res := inl e; st := s; evs := [] |}.

Definition emit (ev : event) : M unit :=
  fun s => {| res := inr tt; st := s; evs := [ev] |}.

Definition get_config : M WarpConfig :=
  fun s => {| res := inr (config s); st := s; evs := [] |}.

Definition set_config (f : WarpConfig -> WarpConfig) : M unit :=
  fun s => {| res := inr tt;
              st := {| config := f (config s); fs := fs s |};
              evs := [] |}.

(** [try: body except Exception as e: handler(e)]: a [SystemExit] passes
    through, it is no [Exception]. *)
Definition try_except {A} (body : M A) (handler : string -> M A) : M A :=
  fun s =>
    match body s with
    | {| res := inl (Exception msg); st := s1; evs := t |} =>
        match handler msg s1 with
        | {| res := r; st := s2; evs := t' |} =>
            {| res := r; st := s2; evs := t ++ t' |}
        end
    | r => r
    end.

(** An external call: logged, then it answers. *)
Definition call {A} (ev : event) (a : answer A) : M A :=
  emit ev ;;
  match a with
  | Ok v => ret v
  | Raise msg => raise (Exception msg)
  end.

(** [sys.exit(code)]. *)
Definition sys_exit {A} (code : Z) : M A := raise (SystemExit code).

(** [os.path.exists(p)], on the file system as the run has left it. *)
Definition os_path_exists (p : string) : M bool :=
  fun s => {| res := inr (fs s p); st := s; evs := [PathExists p] |}.

(** A successful [Repo.clone_from] leaves the working copy at [p]. *)
Definition fs_add (p : string) : M unit :=
  fun s => {| res := inr tt;
              st := {| config := config s;
                       fs := fun q => if String.eqb q p then true else fs s q |};
              evs := [] |}.

(** ** The script *)

Section Script.

Variable w : World.
Variable args : Args.

(** Lines 30-32. *)
Definition build_path : string := os_path_join w (base_path w) "warp".

(** Lines 36-39: four assignments to attributes of [warp.config]. *)
Definition set_verbose (b : bool) : M unit :=
  set_config (fun c =>
    {| cfg_verbose := b; cfg_mode := cfg_mode c;
       cfg_verify_fp := cfg_verify_fp c; cfg_fast_math := cfg_fast_math c;
       cfg_cuda_path := cfg_cuda_path c;
       cfg_host_compiler := cfg_host_compiler c |}).

Definition set_mode (m : string) : M unit :=
  set_config (fun c =>
    {| cfg_verbose := cfg_verbose c; cfg_mode := m;
       cfg_verify_fp := cfg_verify_fp c; cfg_fast_math := cfg_fast_math c;
       cfg_cuda_path := cfg_cuda_path c;
       cfg_host_compiler := cfg_host_compiler c |}).

Definition set_verify_fp (b : bool) : M unit :=
  set_config (fun c =>
    {| cfg_verbose := cfg_verbose c; cfg_mode := cfg_mode c;
       cfg_verify_fp := b; cfg_fast_math := cfg_fast_math c;
       cfg_cuda_path := cfg_cuda_path c;
       cfg_host_compiler := cfg_host_compiler c |}).

Definition set_fast_math (b : bool) : M unit :=
  set_config (fun c =>
    {| cfg_verbose := cfg_verbose c; cfg_mode := cfg_mode c;
       cfg_verify_fp := cfg_verify_fp c; cfg_fast_math := b;
       cfg_cuda_path := cfg_cuda_path c;
       cfg_host_compiler := cfg_host_compiler c |}).

Definition set_cuda_path (p : pystr) : M unit :=
  set_config (fun c =>
    {| cfg_verbose := cfg_verbose c; cfg_mode := cfg_mode c;
       cfg_verify_fp := cfg_verify_fp c; cfg_fast_math := cfg_fast_math c;
       cfg_cuda_path := p;
       cfg_host_compiler := cfg_host_compiler c |}).

Definition set_host_compiler (p : pystr) : M unit :=
  set_config (fun c =>
    {| cfg_verbose := cfg_verbose c; cfg_mode := cfg_mode c;
       cfg_verify_fp := cfg_verify_fp c; cfg_fast_math := cfg_fast_math c;
       cfg_cuda_path := cfg_cuda_path c;
       cfg_host_compiler := p |}).

Definition configure_warp : M unit :=
  set_verbose (verbose args) ;;
  set_mode (mode args) ;;
  set_verify_fp (verify_fp args) ;;
  set_fast_math (fast_math args).

Definition environ_get (name : string) : M pystr :=
  emit (EnvironGet name) ;; ret (environ w name).

(** Lines 43-47.  [or] evaluates its right operand only when the left one
    is false. *)
Definition find_cuda : M pystr :=
  cuda_home <- environ_get "CUDA_HOME" ;;
  if truthy cuda_home then ret cuda_home else environ_get "CUDA_PATH".

(** Lines 51-60. *)
Definition setup_cuda : M unit :=
  if String.eqb (sys_platform w) "darwin" then
    set_cuda_path None
  else if truthy (cuda_path args) then
    set_cuda_path (cuda_path args)
  else
    p <- find_cuda ;;
    set_cuda_path p.

Definition msvc_error : string :=
  "Warp build error: Could not find MSVC compiler".

(** Lines 64-76. *)
Definition setup_msvc : M unit :=
  if String.eqb (os_name w) "nt" then
    if truthy (py_and (sdk_path args) (msvc_path args)) then
      call (SetMsvcCompiler (msvc_path args) (sdk_path args))
           (set_msvc_compiler_ans w (msvc_path args) (sdk_path args))
    else
      hc <- call FindHostCompiler (find_host_compiler_ans w) ;;
      set_host_compiler hc ;;
      c <- get_config ;;
      if negb (truthy (cfg_host_compiler c)) then
        emit (Print msvc_error) ;;
        sys_exit 1
      else ret tt
  else ret tt.

(** Lines 80-128: the bundled Clang/LLVM. *)
Definition llvm_url : string := "https://github.com/llvm/llvm-project.git".

Definition llvm_project_path : string :=
  os_path_join w (base_path w) "external/llvm-project".

Definition llvm_path : string := os_path_join w llvm_project_path "llvm".

Definition llvm_build_path (build_type : string) : string :=
  os_path_join w llvm_project_path ("out/build/" ++ build_type).

Definition llvm_install_path (build_type : string) : string :=
  os_path_join w llvm_project_path ("out/install/" ++ build_type).

Definition cmake_gen (build_type : string) : list string :=
  ["cmake"; "-S"; llvm_path;
   "-B"; llvm_build_path build_type;
   "-G"; "Ninja";
   "-D"; "CMAKE_BUILD_TYPE=" ++ build_type;
   "-D"; "LLVM_USE_CRT_RELEASE=MT";
   "-D"; "LLVM_USE_CRT_DEBUG=MTd";
   "-D"; "LLVM_TARGETS_TO_BUILD=X86";
   "-D"; "LLVM_ENABLE_PROJECTS=clang";
   "-D"; "LLVM_ENABLE_ZLIB=FALSE";
   "-D"; "LLVM_ENABLE_ZSTD=FALSE";
   "-D"; "LLVM_BUILD_LLVM_C_DYLIB=FALSE";
   "-D"; "LLVM_BUILD_RUNTIME=FALSE";
   "-D"; "LLVM_BUILD_RUNTIMES=FALSE";
   "-D"; "LLVM_BUILD_TOOLS=FALSE";
   "-D"; "LLVM_BUILD_UTILS=FALSE";
   "-D"; "LLVM_INCLUDE_BENCHMARKS=FALSE";
   "-D"; "LLVM_INCLUDE_DOCS=FALSE";
   "-D"; "LLVM_INCLUDE_EXAMPLES=FALSE";
   "-D"; "LLVM_INCLUDE_RUNTIMES=FALSE";
   "-D"; "LLVM_INCLUDE_TESTS=FALSE";
   "-D"; "LLVM_INCLUDE_TOOLS=TRUE";
   "-D"; "LLVM_INCLUDE_UTILS=FALSE";
   "-D"; "CMAKE_INSTALL_PREFIX=" ++ llvm_install_path build_type].

Definition cmake_build (build_type : string) : list string :=
  ["cmake"; "--build"; llvm_build_path build_type].

Definition cmake_install (build_type : string) : list string :=
  ["cmake"; "--install"; llvm_build_path build_type].

Definition check_call (argv : list string) : M unit :=
  call (CheckCall argv) (check_call_ans w argv).

(** Lines 81-89: the working copy.  [shallow_clone] is the constant [True];
    the [else] of line 85 is dead. *)
Definition checkout : M unit :=
  ex <- os_path_exists llvm_project_path ;;
  if negb ex then
    call (CloneFrom llvm_url llvm_project_path true "llvmorg-15.0.7" 1)
         (clone_from_ans w) ;;
    fs_add llvm_project_path
  else
    call (RepoOpen llvm_project_path) (repo_open_ans w llvm_project_path).

(** Lines 91-128: configure, build, install.  The value is
    [llvm_install_path], which the compile phase reads. *)
Definition cmake_stages : M string :=
  c <- get_config ;;
  let build_type := capitalize (cfg_mode c) in
  check_call (cmake_gen build_type) ;;
  check_call (cmake_build build_type) ;;
  check_call (cmake_install build_type) ;;
  ret (llvm_install_path build_type).

Definition bootstrap : M string :=
  checkout ;;
  cmake_stages.

(** Lines 132-138. *)
Definition dll_ext : string :=
  if String.eqb (sys_platform w) "win32" then "dll"
  else if String.eqb (sys_platform w) "darwin" then "dylib"
  else "so".

(** Lines 146-165: the target [clang]. *)
Definition clang_cpp_paths : list string :=
  [os_path_join w build_path "clang/clang.cpp"].

Definition clang_dll_path : string :=
  os_path_join w build_path ("bin/clang." ++ dll_ext).

Definition libpath_directive (libpath : string) : string :=
  "/LIBPATH:" ++ dquote ++ libpath ++ dquote.

Definition clang_target (c : WarpConfig) (libs : list string)
  : BuildDllArgs :=
  {| dll_path := clang_dll_path;
     cpp_paths := clang_cpp_paths;
     cu_path := None;
     libs := Some libs;
     bd_mode := cfg_mode c;
     bd_verify_fp := cfg_verify_fp c;
     bd_fast_math := fast_math args;
     use_cache := false;
     bd_quick := None |}.

Definition build_dll (d : BuildDllArgs) : M unit :=
  call (BuildDll d) (build_dll_ans w d).

(** [installed] is the global [llvm_install_path], bound by line 96 when
    [args.build_llvm] holds and unbound otherwise.  When [os.walk] yields
    nothing the loop of lines 151-152 binds no [libs], and line 154
    raises [NameError]. *)
Definition build_clang (installed : option string) : M unit :=
  match installed with
  | None => raise (Exception "name 'llvm_install_path' is not defined")
  | Some install_path =>
      let libpath := os_path_join w install_path "lib" in
      emit (Walk libpath) ;;
      match walk_top w libpath with
      | None => raise (Exception "name 'libs' is not defined")
      | Some libs =>
          let libs := (libs ++ ["Version.lib"])%list in
          let libs := (libs ++ [libpath_directive libpath])%list in
          c <- get_config ;;
          build_dll (clang_target c libs)
      end
  end.

(** Lines 168-197: the target [warp]. *)
Definition cpp_sources : list string :=
  ["native/warp.cpp";
   "native/crt.cpp";
   "native/cuda_util.cpp";
   "native/mesh.cpp";
   "native/hashgrid.cpp";
   "native/sort.cpp";
   "native/volume.cpp";
   "native/marching.cpp";
   "native/cutlass_gemm.cpp"].

Definition warp_cpp_paths : list string :=
  map (os_path_join w build_path) cpp_sources.

Definition warp_dll_path : string :=
  os_path_join w build_path ("bin/warp." ++ dll_ext).

Definition cuda_warning : string :=
  "Warning: CUDA toolchain not found, building without CUDA support".

Definition warp_target (c : WarpConfig) (warp_cu_path : pystr)
  : BuildDllArgs :=
  {| dll_path := warp_dll_path;
     cpp_paths := warp_cpp_paths;
     cu_path := warp_cu_path;
     libs := None;
     bd_mode := cfg_mode c;
     bd_verify_fp := cfg_verify_fp c;
     bd_fast_math := fast_math args;
     use_cache := false;
     bd_quick := Some (quick args) |}.

Definition build_warp : M unit :=
  c <- get_config ;;
  warp_cu_path <-
    match cfg_cuda_path c with
    | None => emit (Print cuda_warning) ;; ret None
    | Some _ => ret (Some (os_path_join w build_path "native/warp.cu"))
    end ;;
  c <- get_config ;;
  build_dll (warp_target c warp_cu_path).

(** Lines 141-197: the body of the [try]. *)
Definition compile_phase (installed : option string) : M unit :=
  (if build_llvm args then build_clang installed else ret tt) ;;
  build_warp.

(** Lines 199-205: the [except] clause. *)
Definition report (msg : string) : M unit :=
  emit (Print ("Warp build error: " ++ msg)) ;;
  sys_exit 1.

(** Lines 34-76: the configuration and the two toolchains. *)
Definition toolchains : M unit :=
  emit (PrintArgs args) ;;
  configure_warp ;;
  setup_cuda ;;
  setup_msvc.

(** Lines 79-128.  The value is the global [llvm_install_path] if line 96
    has bound it. *)
Definition bundled_llvm : M (option string) :=
  if build_llvm args then
    p <- bootstrap ;;
    ret (Some p)
  else ret None.

(** Lines 34-128: everything before the [try]. *)
Definition prelude : M (option string) :=
  toolchains ;;
  bundled_llvm.

(** The whole script. *)
Definition main : M unit :=
  installed <- prelude ;;
  try_except (compile_phase installed) report.

Definition init_state : St :=
  {| config := config0 w; fs := path_exists w |}.

Definition run : Run unit := main init_state.

End Script.

(** The exit status of the interpreter: 0 when the script runs to its end,
    the code of [sys.exit], and 1 for an exception no handler caught. *)
Definition exit_status {A} (r : exn + A) : Z :=
  match r with
  | inr _ => 0
  | inl (SystemExit code) => code
  | inl (Exception _) => 1
  end.

(** The message lines the script prints, in order.  The echo of the
    arguments (line 34) is logged as [PrintArgs] and is no message. *)
Fixpoint printed (t : list event) : list string :=
  match t with
  | [] => []
  | Print l :: t' => l :: printed t'
  | _ :: t' => printed t'
  end.

(** The command lines given to [subprocess.check_call], in order. *)
Fixpoint check_calls (t : list event) : list (list string) :=
  match t with
  | [] => []
  | CheckCall argv :: t' => argv :: check_calls t'
  | _ :: t' => check_calls t'
  end.

(** The targets given to the compile-and-link driver, in order. *)
Fixpoint build_dlls (t : list event) : list BuildDllArgs :=
  match t with
  | [] => []
  | BuildDll d :: t' => d :: build_dlls t'
  | _ :: t' => build_dlls t'
  end.

(** Whether an event starts an external process or hands work to a
    collaborator that does: a checkout, a build-system stage, a
    compilation. *)
Definition spawns (e : event) : bool :=
  match e with
  | CloneFrom _ _ _ _ _ | CheckCall _ | BuildDll _ => true
  | _ => false
  end.

(** ** Notions the properties speak of *)

(** The GPU SDK the script settles on. *)
Definition found_cuda (w : World) (a : Args) : pystr :=
  if String.eqb (sys_platform w) "darwin" then None
  else if truthy (cuda_path a) then cuda_path a
  else py_or (environ w "CUDA_HOME") (environ w "CUDA_PATH").

(** The [try] statement of lines 141-205. *)
Definition boundary (w : World) (a : Args) (installed : option string)
  : M unit :=
  try_except (compile_phase w a installed) report.

Definition is_clone (e : event) : bool :=
  match e with CloneFrom _ _ _ _ _ => true | _ => false end.

Definition is_environ_get (e : event) : bool :=
  match e with EnvironGet _ => true | _ => false end.

(** The three command lines of the build system, for a build type. *)
Definition stages (w : World) (bt : string) : list (list string) :=
  [cmake_gen w bt; cmake_build w bt; cmake_install w bt].

(** A world where no external call fails and a host compiler is found. *)
Definition obliging (w : World) : Prop :=
  (forall m k, set_msvc_compiler_ans w m k = Ok tt) /\
  (exists h, find_host_compiler_ans w = Ok h /\ truthy h = true) /\
  clone_from_ans w = Ok tt /\
  (forall p, repo_open_ans w p = Ok tt) /\
  (forall argv, check_call_ans w argv = Ok tt) /\
  (forall p, walk_top w p <> None) /\
  (forall d, build_dll_ans w d = Ok tt).

(** Where a run ends: in the toolchains, in the bootstrap of the bundled
    LLVM, or in the [try] statement. *)
Inductive phases (w : World) (a : Args) : Prop :=
| stop_toolchains (e : exn)
    (Hres1 : res (toolchains w a (init_state w)) = inl e)
    (Hres : res (run w a) = inl e)
    (Hevs : evs (run w a) = evs (toolchains w a (init_state w)))
    (Hst : st (run w a) = st (toolchains w a (init_state w)))
| stop_bundled (e : exn) (s1 : St)
    (Hs1 : s1 = st (toolchains w a (init_state w)))
    (Hres1 : res (toolchains w a (init_state w)) = inr tt)
    (Hres2 : res (bundled_llvm w a s1) = inl e)
    (Hres : res (run w a) = inl e)
    (Hevs : evs (run w a) =
            (evs (toolchains w a (init_state w)) ++
             evs (bundled_llvm w a s1))%list)
    (Hst : st (run w a) = st (bundled_llvm w a s1))
| reach_compile (installed : option string) (s1 s2 : St)
    (Hs1 : s1 = st (toolchains w a (init_state w)))
    (Hs2 : s2 = st (bundled_llvm w a s1))
    (Hres1 : res (toolchains w a (init_state w)) = inr tt)
    (Hres2 : res (bundled_llvm w a s1) = inr installed)
    (Hpre : res (prelude w a (init_state w)) = inr installed)
    (Hpst : st (prelude w a (init_state w)) = s2)
    (Hres : res (run w a) = res (boundary w a installed s2))
    (Hevs : evs (run w a) =
            (evs (toolchains w a (init_state w)) ++
             evs (bundled_llvm w a s1) ++
             evs (boundary w a installed s2))%list)
    (Hst : st (run w a) = st (boundary w a installed s2)).

(** ** Concrete worlds *)

(** [posixpath.join] of two components. *)
Definition posix_join (a b : string) : string :=
  match b with
  | String "/" _ => b
  | _ =>
      if String.eqb a EmptyString then b
      else if String.eqb (substring (String.length a - 1) 1 a) "/" then a ++ b
      else a ++ "/" ++ b
  end.

Definition config_py : WarpConfig :=
  {| cfg_verbose := false; cfg_mode := "release"; cfg_verify_fp := false;
     cfg_fast_math := false; cfg_cuda_path := None;
     cfg_host_compiler := None |}.

(** A world where every external call succeeds, but for the command lines
    in [failing]; [present] are the paths that exist, [env] the environment,
    [host] what the search for a host compiler finds, [files] the file names
    in any directory that is walked. *)
Definition a_world (platform name : string) (env : list (string * string))
    (present : list string) (host : pystr) (files : option (list string))
    (failing : list (list string)) (bad_targets : list string) : World :=
  {| sys_platform := platform;
     os_name := name;
     os_path_join := posix_join;
     base_path := "/src";
     environ := fun k =>
       match find (fun kv => String.eqb (fst kv) k) env with
       | Some kv => Some (snd kv)
       | None => None
       end;
     path_exists := fun p => existsb (String.eqb p) present;
     config0 := config_py;
     set_msvc_compiler_ans := fun _ _ => Ok tt;
     find_host_compiler_ans := Ok host;
     clone_from_ans := Ok tt;
     repo_open_ans := fun _ => Ok tt;
     check_call_ans := fun argv =>
       if existsb (fun bad => if list_eq_dec string_dec argv bad
                              then true else false) failing
       then Raise "cmake returned non-zero exit status 1"
       else Ok tt;
     walk_top := fun _ => files;
     build_dll_ans := fun d =>
       if existsb (String.eqb (dll_path d)) bad_targets
       then Raise "compilation failed"
       else Ok tt |}.

Definition linux : World :=
  a_world "linux" "posix" [] [] None None [] [].

Definition darwin_with_cuda : World :=
  a_world "darwin" "posix"
    [("CUDA_HOME", "/usr/local/cuda"); ("CUDA_PATH", "/opt/cuda")]
    [] None None [] [].

Definition cuda_args : Args :=
  {| msvc_path := None; sdk_path := None; cuda_path := Some "/cuda";
     mode := "release"; verbose := true; verify_fp := false;
     fast_math := false; quick := false; build_llvm := false |}.

Definition windows_bare : World :=
  a_world "win32" "nt" [] [] (Some EmptyString) None [] [].

Definition llvm_args : Args :=
  {| msvc_path := None; sdk_path := None; cuda_path := None;
     mode := "release"; verbose := true; verify_fp := false;
     fast_math := false; quick := false; build_llvm := true |}.

(** A Linux machine where the bundled LLVM is already checked out and its
    install directory holds two libraries. *)
Definition linux_llvm : World :=
  a_world "linux" "posix" [] ["/src/external/llvm-project"] None
    (Some ["clangAST.lib"; "LLVMCore.lib"]) [] [].

Definition quick_args : Args :=
  {| msvc_path := None; sdk_path := None; cuda_path := None;
     mode := "release"; verbose := true; verify_fp := false;
     fast_math := false; quick := true; build_llvm := false |}.

(** A Linux machine where the build stage of the bundled LLVM fails. *)
Definition linux_build_fails : World :=
  a_world "linux" "posix" [] ["/src/external/llvm-project"] None
    (Some ["clangAST.lib"; "LLVMCore.lib"])
    [cmake_build linux "Release"] [].

(** A Linux machine where the compilation of the primary target fails. *)
Definition linux_warp_fails : World :=
  a_world "linux" "posix" [] [] None None [] ["/src/warp/bin/warp.so"].

(** A Linux machine where the configure stage of the bundled LLVM fails. *)
Definition linux_configure_fails : World :=
  a_world "linux" "posix" [] [] None
    (Some ["clangAST.lib"; "LLVMCore.lib"])
    [cmake_gen linux "Release"] [].

Definition fast_args : Args :=
  {| msvc_path := None; sdk_path := None; cuda_path := None;
     mode := "fast"; verbose := true; verify_fp := false;
     fast_math := false; quick := false; build_llvm := true |}.

Definition linux_fresh : World :=
  a_world "linux" "posix" [] [] (Some "cc")
    (Some ["clangAST.lib"; "LLVMCore.lib"]) [] [].

(** The events of the dependency bootstrapper and of the listing of its
    install directory. *)
Definition is_bootstrap_event (e : event) : bool :=
  match e with
  | PathExists _ | CloneFrom _ _ _ _ _ | RepoOpen _ | CheckCall _ | Walk _ =>
      true
  | _ => false
  end.

(** The calls that settle the host compiler. *)
Definition is_host_event (e : event) : bool :=
  match e with
  | SetMsvcCompiler _ _ | FindHostCompiler => true
  | _ => false
  end.

(** The line the [except] clause prints for an exception message. *)
Definition error_line (msg : string) : string := "Warp build error: " ++ msg.

(** The GPU source of the primary target, for a GPU SDK that was or was
    not found. *)
Definition gpu_source (w : World) (found : pystr) : pystr :=
  match found with
  | None => None
  | Some _ => Some (os_path_join w (build_path w) "native/warp.cu")
  end.

(** The targets of a run that gets through, in the order of submission. *)
Definition plan (w : World) (a : Args) (c : WarpConfig) (l : list string)
    (cu : pystr) : list BuildDllArgs :=
  if build_llvm a
  then [clang_target w a c l; warp_target w a c cu]
  else [warp_target w a c cu].

Definition linux_cuda_env : World :=
  a_world "linux" "posix"
    [("CUDA_HOME", "/usr/local/cuda"); ("CUDA_PATH", "/opt/cuda")]
    [] None None [] [].

(** A Linux machine where [CUDA_PATH] is set to the empty string. *)
Definition linux_empty_cuda_path : World :=
  a_world "linux" "posix" [("CUDA_PATH", EmptyString)] [] None None [] [].

(** A Linux machine with the bundled LLVM checked out whose install
    directory cannot be listed. *)
Definition linux_no_lib : World :=
  a_world "linux" "posix" [] ["/src/external/llvm-project"] None None [] [].

(** A Windows machine where the environment has a compiler. *)
Definition windows_vs : World :=
  a_world "win32" "nt" [] [] (Some "cl.exe") None [] [].

Definition msvc_args : Args :=
  {| msvc_path := Some "C:/msvc"; sdk_path := Some "C:/sdk";
     cuda_path := None; mode := "release"; verbose := true;
     verify_fp := false; fast_math := false; quick := false;
     build_llvm := false |}.

Definition msvc_only_args : Args :=
  {| msvc_path := Some "C:/msvc"; sdk_path := None;
     cuda_path := None; mode := "release"; verbose := true;
     verify_fp := false; fast_math := false; quick := false;
     build_llvm := false |}.

Definition upper_debug_args : Args :=
  {| msvc_path := None; sdk_path := None; cuda_path := None;
     mode := "DEBUG"; verbose := true; verify_fp := true;
     fast_math := true; quick := false; build_llvm := true |}.

(** Whether [s] ends with [suffix]. *)
Definition ends_with (suffix s : string) : bool :=
  let n := String.length suffix in
  let m := String.length s in
  (n <=? m)%nat && String.eqb (substring (m - n) n s) suffix.

(** A library file, as a reader of the specification takes the word: a name
    with the extension of a static or import library.  The script has no
    such test; the notion only serves to say where it takes other files
    too. *)
Definition is_library_file (name : string) : bool :=
  ends_with ".lib" name || ends_with ".a" name.

(** Text that holds ASCII characters only. *)
Definition ascii_only (s : string) : bool :=
  forallb (fun c => (nat_of_ascii c <? 128)%nat) (list_ascii_of_string s).

(** A Linux machine with the bundled LLVM checked out whose install
    directory holds one library and one file that is none. *)
Definition linux_readme : World :=
  a_world "linux" "posix" [] ["/src/external/llvm-project"] None
    (Some ["LLVMCore.lib"; "README.txt"]) [] [].

(** * Properties *)

Local Open Scope list_scope.

(** ** The monad and the log *)

Lemma res_bind {A B} (m : M A) (k : A -> M B) (s : St) :
  res (bind m k s) =
  match res (m s) with
  | inl e => inl e
  | inr a => res (k a (st (m s)))
  end.
Proof.
  unfold bind. destruct (m s) as [[e|a] s1 t]; simpl; [reflexivity|].
  destruct (k a s1); reflexivity.
Qed.

Lemma evs_bind {A B} (m : M A) (k : A -> M B) (s : St) :
  evs (bind m k s) =
  evs (m s) ++ match res (m s) with
               | inl _ => []
               | inr a => evs (k a (st (m s)))
               end.
Proof.
  unfold bind. destruct (m s) as [[e|a] s1 t]; simpl; [now rewrite app_nil_r|].
  destruct (k a s1); reflexivity.
Qed.

Lemma st_bind {A B} (m : M A) (k : A -> M B) (s : St) :
  st (bind m k s) =
  match res (m s) with
  | inl _ => st (m s)
  | inr a => st (k a (st (m s)))
  end.
Proof.
  unfold bind. destruct (m s) as [[e|a] s1 t]; simpl; [reflexivity|].
  destruct (k a s1); reflexivity.
Qed.

Lemma printed_app (t u : list event) :
  printed (t ++ u) = (printed t ++ printed u)%list.
Proof.
  induction t as [|e t IH]; simpl; [reflexivity|].
  destruct e; simpl; rewrite ?IH; reflexivity.
Qed.

Lemma check_calls_app (t u : list event) :
  check_calls (t ++ u) = (check_calls t ++ check_calls u)%list.
Proof.
  induction t as [|e t IH]; simpl; [reflexivity|].
  destruct e; simpl; rewrite ?IH; reflexivity.
Qed.

Lemma build_dlls_app (t u : list event) :
  build_dlls (t ++ u) = (build_dlls t ++ build_dlls u)%list.
Proof.
  induction t as [|e t IH]; simpl; [reflexivity|].
  destruct e; simpl; rewrite ?IH; reflexivity.
Qed.

Lemma In_check_calls (argv : list string) (t : list event) :
  In (CheckCall argv) t <-> In argv (check_calls t).
Proof.
  induction t as [|e t IH]; simpl; [tauto|].
  destruct e; simpl; rewrite <- IH;
    try (split; [intros [H|H]; [discriminate H | exact H] | tauto]).
  split; (intros [H|H]; [left; congruence | tauto]).
Qed.

Lemma In_build_dlls (d : BuildDllArgs) (t : list event) :
  In (BuildDll d) t <-> In d (build_dlls t).
Proof.
  induction t as [|e t IH]; simpl; [tauto|].
  destruct e; simpl; rewrite <- IH;
    try (split; [intros [H|H]; [discriminate H | exact H] | tauto]).
  split; (intros [H|H]; [left; congruence | tauto]).
Qed.

(** The command lines of the three stages differ. *)
Lemma cmake_gen_not_build (w : World) (bt bt' : string) :
  cmake_gen w bt <> cmake_build w bt'.
Proof. unfold cmake_gen, cmake_build. intros H. discriminate H. Qed.

Lemma cmake_gen_not_install (w : World) (bt bt' : string) :
  cmake_gen w bt <> cmake_install w bt'.
Proof. unfold cmake_gen, cmake_install. intros H. discriminate H. Qed.

Lemma cmake_build_not_install (w : World) (bt bt' : string) :
  cmake_build w bt <> cmake_install w bt'.
Proof. unfold cmake_build, cmake_install. intros H. discriminate H. Qed.

Arguments cmake_gen : simpl never.
Arguments cmake_build : simpl never.
Arguments cmake_install : simpl never.
Arguments llvm_project_path : simpl never.
Arguments llvm_install_path : simpl never.
Arguments llvm_url : simpl never.
Arguments clang_target : simpl never.
Arguments warp_target : simpl never.
Arguments capitalize : simpl never.
Arguments libpath_directive : simpl never.
Arguments msvc_error : simpl never.
Arguments cuda_warning : simpl never.
Arguments build_path : simpl never.
Arguments String.eqb : simpl never.
Arguments String.append : simpl never.

(** Case analysis on the next answer of the outside the run depends on. *)
Ltac next_case :=
  match goal with
  | |- context [match ?x with _ => _ end] =>
      lazymatch x with
      | context [match _ with _ => _ end] => fail
      | _ => destruct x eqn:?
      end
  end; simpl.

Ltac run_cases := simpl; repeat next_case.


Ltac unfold_toolchains :=
  unfold toolchains, configure_warp, setup_cuda, setup_msvc, find_cuda,
    environ_get, call, sys_exit, bind.

Ltac unfold_bootstrap :=
  unfold bundled_llvm, bootstrap, checkout, cmake_stages, check_call, call,
    bind.

Ltac unfold_compile :=
  unfold compile_phase, report, build_clang, build_warp, build_dll, call,
    sys_exit, try_except, bind.

(** ** The toolchains (lines 34-76) *)

Lemma toolchains_fs (w : World) (a : Args) (s : St) :
  fs (st (toolchains w a s)) = fs s.
Proof. unfold_toolchains. run_cases; reflexivity. Qed.

Lemma toolchains_quiet (w : World) (a : Args) (s : St) :
  Forall (fun e => spawns e = false) (evs (toolchains w a s)).
Proof. unfold_toolchains. run_cases; repeat constructor. Qed.

Lemma toolchains_check_calls (w : World) (a : Args) (s : St) :
  check_calls (evs (toolchains w a s)) = [].
Proof. unfold_toolchains. run_cases; reflexivity. Qed.

Lemma toolchains_build_dlls (w : World) (a : Args) (s : St) :
  build_dlls (evs (toolchains w a s)) = [].
Proof. unfold_toolchains. run_cases; reflexivity. Qed.

(** When the toolchains are settled the script has printed nothing, and
    [warp.config] holds the mode and flags of the command line and the GPU
    SDK that was found. *)
Lemma toolchains_ok (w : World) (a : Args) (s : St) :
  res (toolchains w a s) = inr tt ->
  printed (evs (toolchains w a s)) = [] /\
  cfg_mode (config (st (toolchains w a s))) = mode a /\
  cfg_verify_fp (config (st (toolchains w a s))) = verify_fp a /\
  cfg_cuda_path (config (st (toolchains w a s))) = found_cuda w a.
Proof.
  unfold found_cuda, py_or. unfold_toolchains.
  run_cases; intros H; try discriminate H; repeat split; reflexivity.
Qed.

(** ** The bundled Clang/LLVM (lines 79-128) *)

Lemma bundled_config (w : World) (a : Args) (s : St) :
  config (st (bundled_llvm w a s)) = config s.
Proof. unfold_bootstrap. run_cases; reflexivity. Qed.

Lemma bundled_printed (w : World) (a : Args) (s : St) :
  printed (evs (bundled_llvm w a s)) = [].
Proof. unfold_bootstrap. run_cases; reflexivity. Qed.

Lemma bundled_build_dlls (w : World) (a : Args) (s : St) :
  build_dlls (evs (bundled_llvm w a s)) = [].
Proof. unfold_bootstrap. run_cases; reflexivity. Qed.

Lemma bundled_ok (w : World) (a : Args) (s : St) (installed : option string) :
  res (bundled_llvm w a s) = inr installed ->
  installed =
    if build_llvm a
    then Some (llvm_install_path w (capitalize (cfg_mode (config s))))
    else None.
Proof.
  unfold_bootstrap.
  run_cases; intros H; try discriminate H; now injection H as <-.
Qed.

(** ** The compile phase and its boundary (lines 141-205) *)

Lemma boundary_check_calls (w : World) (a : Args) (i : option string) (s : St) :
  check_calls (evs (boundary w a i s)) = [].
Proof. unfold boundary. unfold_compile. run_cases; reflexivity. Qed.

Lemma boundary_no_clone (w : World) (a : Args) (i : option string) (s : St) :
  forallb (fun e => negb (is_clone e)) (evs (boundary w a i s)) = true.
Proof. unfold boundary. unfold_compile. run_cases; reflexivity. Qed.

Lemma toolchains_no_clone (w : World) (a : Args) (s : St) :
  forallb (fun e => negb (is_clone e)) (evs (toolchains w a s)) = true.
Proof. unfold_toolchains. run_cases; reflexivity. Qed.

(** ** The run, phase by phase *)

Lemma run_phases (w : World) (a : Args) : phases w a.
Proof.
  destruct (toolchains w a (init_state w)) as [[e|[]] s1 t1] eqn:E1.
  - eapply stop_toolchains;
      unfold run, main, prelude, bind; rewrite ?E1; reflexivity.
  - destruct (bundled_llvm w a s1) as [[e|i] s2 t2] eqn:E2.
    + eapply stop_bundled with (s1 := s1);
        unfold run, main, prelude, bind; rewrite ?E1; simpl; rewrite ?E2;
        reflexivity.
    + eapply reach_compile with (s1 := s1) (s2 := s2) (installed := i);
        unfold run, main, prelude, boundary, bind; rewrite ?E1; simpl;
        rewrite ?E2; simpl; try reflexivity.
      all: destruct (try_except (compile_phase w a i) report s2); simpl;
        rewrite ?app_assoc; reflexivity.
Qed.

Lemma bundled_no_environ (w : World) (a : Args) (s : St) :
  forallb (fun e => negb (is_environ_get e)) (evs (bundled_llvm w a s)) = true.
Proof. unfold_bootstrap. run_cases; reflexivity. Qed.

Lemma boundary_no_environ (w : World) (a : Args) (i : option string) (s : St) :
  forallb (fun e => negb (is_environ_get e)) (evs (boundary w a i s)) = true.
Proof. unfold boundary. unfold_compile. run_cases; reflexivity. Qed.

Lemma toolchains_darwin_no_environ (w : World) (a : Args) (s : St) :
  sys_platform w = "darwin" ->
  forallb (fun e => negb (is_environ_get e)) (evs (toolchains w a s)) = true.
Proof.
  intros H. unfold_toolchains. rewrite H, String.eqb_refl.
  run_cases; reflexivity.
Qed.

(** ** Before and after the [try] *)

Lemma run_stop (w : World) (a : Args) (e : exn) :
  res (prelude w a (init_state w)) = inl e ->
  res (run w a) = inl e /\
  evs (run w a) = evs (prelude w a (init_state w)).
Proof.
  unfold run, main, bind.
  destruct (prelude w a (init_state w)) as [[e'|i] s1 t1]; simpl;
    intros H; [|discriminate H].
  injection H as ->. split; reflexivity.
Qed.

Lemma run_reach (w : World) (a : Args) (i : option string) :
  res (prelude w a (init_state w)) = inr i ->
  res (run w a) = res (boundary w a i (st (prelude w a (init_state w)))) /\
  evs (run w a) =
    evs (prelude w a (init_state w)) ++
    evs (boundary w a i (st (prelude w a (init_state w)))).
Proof.
  unfold run, main, boundary, bind.
  destruct (prelude w a (init_state w)) as [[e'|i'] s1 t1]; simpl;
    intros H; [discriminate H|].
  injection H as ->.
  destruct (try_except (compile_phase w a i) report s1); split; reflexivity.
Qed.

Lemma prelude_build_dlls (w : World) (a : Args) (s : St) :
  build_dlls (evs (prelude w a s)) = [].
Proof.
  unfold prelude. rewrite evs_bind, build_dlls_app, toolchains_build_dlls.
  destruct (res (toolchains w a s)); [reflexivity|].
  apply bundled_build_dlls.
Qed.

(** When the [try] is reached the script has printed nothing, [warp.config]
    holds the mode and flags of the command line and the GPU SDK that was
    found, and [llvm_install_path] is bound if the bundled LLVM was asked
    for. *)
Lemma prelude_ok (w : World) (a : Args) (s : St) (i : option string) :
  res (prelude w a s) = inr i ->
  printed (evs (prelude w a s)) = [] /\
  cfg_mode (config (st (prelude w a s))) = mode a /\
  cfg_verify_fp (config (st (prelude w a s))) = verify_fp a /\
  cfg_cuda_path (config (st (prelude w a s))) = found_cuda w a /\
  i = if build_llvm a
      then Some (llvm_install_path w (capitalize (mode a)))
      else None.
Proof.
  unfold prelude. rewrite res_bind, evs_bind, st_bind, printed_app.
  destruct (res (toolchains w a s)) as [e|[]] eqn:E; [discriminate|].
  destruct (toolchains_ok w a s E) as (P & Hm & Hv & Hc).
  intros H. rewrite P, bundled_printed, bundled_config.
  apply bundled_ok in H. rewrite Hm in H. auto.
Qed.

(** The targets the compile phase gives to the driver are the two the
    script assembles. *)
Lemma boundary_targets (w : World) (a : Args) (i : option string) (s : St) :
  Forall (fun d => (exists l, d = clang_target w a (config s) l) \/
                   (exists cu, d = warp_target w a (config s) cu))
         (build_dlls (evs (boundary w a i s))).
Proof.
  unfold boundary. unfold_compile.
  run_cases; repeat (apply Forall_cons || apply Forall_nil); eauto.
Qed.

(** Every target the run gives to the driver is given in the compile
    phase. *)
Lemma run_build_dll (w : World) (a : Args) (d : BuildDllArgs) :
  In (BuildDll d) (evs (run w a)) ->
  exists i,
    res (prelude w a (init_state w)) = inr i /\
    In d (build_dlls
            (evs (boundary w a i (st (prelude w a (init_state w)))))).
Proof.
  rewrite In_build_dlls.
  destruct (res (prelude w a (init_state w))) as [e|i] eqn:E.
  - destruct (run_stop w a e E) as (_ & ->).
    rewrite prelude_build_dlls. intros [].
  - destruct (run_reach w a i E) as (_ & ->).
    rewrite build_dlls_app, prelude_build_dlls. simpl. eauto.
Qed.

(** ** GPU SDK discovery *)

(** C9.  On the platform without GPU support ([sys.platform] is [darwin])
    the discovery of the GPU SDK gives [None] whatever the explicit path of
    the command line and whatever the environment hold; it reads no
    environment variable, neither in the discovery itself nor anywhere in
    the run. *)
Theorem cuda_absent_on_darwin (w : World) (a : Args) (s : St) :
  sys_platform w = "darwin" ->
  res (setup_cuda w a s) = inr tt /\
  cfg_cuda_path (config (st (setup_cuda w a s))) = None /\
  evs (setup_cuda w a s) = [] /\
  found_cuda w a = None /\
  forall name, ~ In (EnvironGet name) (evs (run w a)).
Proof.
  intros H. unfold found_cuda, setup_cuda. rewrite H, String.eqb_refl.
  repeat split.
  intros name Hin.
  assert (Hall : forallb (fun e => negb (is_environ_get e)) (evs (run w a)) = true).
  { destruct (run_phases w a); rewrite Hevs, ?forallb_app;
      rewrite (toolchains_darwin_no_environ w a _ H); simpl;
      rewrite ?bundled_no_environ, ?boundary_no_environ; reflexivity. }
  rewrite forallb_forall in Hall. apply Hall in Hin. discriminate Hin.
Qed.

Lemma cuda_absent_on_darwin_witness :
  cuda_path cuda_args = Some "/cuda" /\
  environ darwin_with_cuda "CUDA_HOME" = Some "/usr/local/cuda" /\
  cfg_cuda_path
    (config (st (setup_cuda darwin_with_cuda cuda_args
                   (init_state darwin_with_cuda)))) = None.
Proof.
  split; [reflexivity|]. split; [reflexivity|].
  apply (cuda_absent_on_darwin darwin_with_cuda cuda_args
           (init_state darwin_with_cuda)).
  reflexivity.
Defined.

(** ** The host compiler *)

(** C4.  On the platform that needs an explicit host compiler ([os.name]
    is [nt]), when the command line does not give both the SDK path and the
    compiler path and the search of the environment finds no compiler, the
    script prints the line [msvc_error], its only message and its last
    action, and leaves with [sys.exit(1)]: the exit status is 1, and no
    checkout, no build-system stage and no compilation was started. *)
Theorem missing_host_compiler_exits (w : World) (a : Args) (found : pystr) :
  os_name w = "nt" ->
  truthy (py_and (sdk_path a) (msvc_path a)) = false ->
  find_host_compiler_ans w = Ok found ->
  truthy found = false ->
  res (run w a) = inl (SystemExit 1) /\
  exit_status (res (run w a)) = 1 /\
  printed (evs (run w a)) = [msvc_error] /\
  last (evs (run w a)) (PrintArgs a) = Print msvc_error /\
  Forall (fun e => spawns e = false) (evs (run w a)).
Proof.
  intros Hnt Hexp Hans Hfound.
  assert (H1 : res (toolchains w a (init_state w)) = inl (SystemExit 1) /\
               printed (evs (toolchains w a (init_state w))) = [msvc_error] /\
               last (evs (toolchains w a (init_state w))) (PrintArgs a)
               = Print msvc_error).
  { unfold_toolchains. rewrite Hnt, String.eqb_refl, Hexp, Hans.
    run_cases; rewrite ?Hfound; simpl; repeat split;
      destruct found as [[|c r]|]; simpl in *; try discriminate;
      repeat split; reflexivity. }
  destruct H1 as (R1 & P1 & L1).
  destruct (run_phases w a); try congruence.
  assert (e = SystemExit 1) as -> by congruence.
  rewrite Hres, Hevs, P1, L1. repeat split.
  apply toolchains_quiet.
Qed.

Lemma missing_host_compiler_exits_witness :
  exit_status (res (run windows_bare default_args)) = 1.
Proof.
  apply (missing_host_compiler_exits windows_bare default_args (Some EmptyString));
    reflexivity.
Defined.

(** ** The targets *)

(** C10.  Every target of every run, the auxiliary one and the primary one,
    is given to the compile-and-link driver with [use_cache=False]: nothing
    on the command line or in the world changes it. *)
Theorem no_target_is_cached (w : World) (a : Args) (d : BuildDllArgs) :
  In (BuildDll d) (evs (run w a)) ->
  use_cache d = false.
Proof.
  intros H. apply run_build_dll in H. destruct H as (i & _ & H).
  pose proof (boundary_targets w a i (st (prelude w a (init_state w)))) as F.
  rewrite Forall_forall in F.
  destruct (F d H) as [[l ->]|[cu ->]]; reflexivity.
Qed.

Lemma no_target_is_cached_witness :
  use_cache (clang_target linux_llvm llvm_args config_py
               ["clangAST.lib"; "LLVMCore.lib"; "Version.lib";
                libpath_directive
                  "/src/external/llvm-project/out/install/Release/lib"])
  = false.
Proof.
  apply (no_target_is_cached linux_llvm llvm_args).
  vm_compute. tauto.
Defined.

(** C1, as the script has it.  The list of sources of the primary target
    is the fixed list [cpp_sources] under [build_path], whatever
    [args.quick] is: the CUTLASS module is its last entry with [--quick] and
    without it.  [args.quick] reaches the driver as the keyword argument
    [quick] of the same call, and that call is the one target [build_warp]
    submits. *)
Theorem warp_sources_fixed (w : World) (a : Args) (s : St) :
  exists cu,
    let d := warp_target w a (config s) cu in
    build_dlls (evs (build_warp w a s)) = [d] /\
    cpp_paths d = map (os_path_join w (build_path w)) cpp_sources /\
    In (os_path_join w (build_path w) "native/cutlass_gemm.cpp") (cpp_paths d) /\
    last (cpp_paths d) EmptyString =
      os_path_join w (build_path w) "native/cutlass_gemm.cpp" /\
    bd_quick d = Some (quick a).
Proof.
  unfold build_warp, build_dll, call, bind. simpl.
  destruct (cfg_cuda_path (config s)) as [p|];
    [exists (Some (os_path_join w (build_path w) "native/warp.cu"))
    |exists None];
    simpl; destruct (build_dll_ans w _); simpl;
    repeat split; unfold warp_target; simpl; tauto.
Qed.

(** C1 fails as stated: with [--quick] the CUTLASS module is still in the
    list of sources the driver receives. *)
Lemma quick_mode_lists_cutlass :
  quick quick_args = true /\
  exists d,
    build_dlls (evs (run linux quick_args)) = [d] /\
    dll_path d = "/src/warp/bin/warp.so" /\
    In "/src/warp/native/cutlass_gemm.cpp" (cpp_paths d).
Proof.
  split; [reflexivity|].
  eexists. split; [vm_compute; reflexivity|].
  split; [reflexivity|]. simpl. tauto.
Qed.

(** What [build_clang] submits when the library directory can be listed. *)
Lemma boundary_clang_libs (w : World) (a : Args) (ip : string) (s : St)
    (files : list string) :
  walk_top w (os_path_join w ip "lib") = Some files ->
  Forall (fun d => forall l, libs d = Some l ->
            l = files ++ ["Version.lib";
                          libpath_directive (os_path_join w ip "lib")])
         (build_dlls (evs (boundary w a (Some ip) s))).
Proof.
  intros H. unfold boundary. unfold_compile. simpl. rewrite H.
  run_cases; repeat (apply Forall_cons || apply Forall_nil);
    unfold clang_target, warp_target; simpl; intros l E;
    try discriminate E; injection E as <-; rewrite <- app_assoc; reflexivity.
Qed.

Lemma boundary_clang_submitted (w : World) (a : Args) (ip : string) (s : St)
    (files : list string) :
  build_llvm a = true ->
  walk_top w (os_path_join w ip "lib") = Some files ->
  In (BuildDll (clang_target w a (config s)
                  (files ++ ["Version.lib";
                             libpath_directive (os_path_join w ip "lib")])))
     (evs (boundary w a (Some ip) s)).
Proof.
  intros B H. unfold boundary. unfold_compile. simpl. rewrite B, H.
  rewrite <- app_assoc. simpl.
  run_cases; tauto.
Qed.

(** C7, as the script has it.  The script lists file names, of whatever
    kind, and filters nothing.  With [--build_llvm], when the walk of the
    [lib] directory of the install prefix yields the [N] file names [files],
    libraries or not, the extra-library
    list of the auxiliary target has [N + 2] entries: [files] in their
    order, then [Version.lib], then the [/LIBPATH:] directive for that
    directory.  Every target of the run that carries an extra-library list
    carries this one, and the target is submitted whenever the [try] is
    reached. *)
Theorem clang_extra_libs (w : World) (a : Args) (files : list string) (N : nat) :
  let libpath :=
    os_path_join w (llvm_install_path w (capitalize (mode a))) "lib" in
  let l := files ++ ["Version.lib"; libpath_directive libpath] in
  build_llvm a = true ->
  walk_top w libpath = Some files ->
  length files = N ->
  length l = (N + 2)%nat /\
  (forall d l', In (BuildDll d) (evs (run w a)) -> libs d = Some l' -> l' = l) /\
  (forall i, res (prelude w a (init_state w)) = inr i ->
     exists c, In (BuildDll (clang_target w a c l)) (evs (run w a)) /\
               libs (clang_target w a c l) = Some l).
Proof.
  intros libpath l B H HN. split; [|split].
  - unfold l. rewrite length_app, HN. reflexivity.
  - intros d l' Hin Hl. apply run_build_dll in Hin.
    destruct Hin as (i & E & Hin).
    destruct (prelude_ok w a _ i E) as (_ & _ & _ & _ & ->). rewrite B in Hin.
    pose proof (boundary_clang_libs w a _ (st (prelude w a (init_state w)))
                  files H) as F.
    rewrite Forall_forall in F. exact (F d Hin l' Hl).
  - intros i E. destruct (run_reach w a i E) as (_ & Hevs).
    destruct (prelude_ok w a _ i E) as (_ & _ & _ & _ & ->). rewrite B in Hevs.
    exists (config (st (prelude w a (init_state w)))). split; [|reflexivity].
    rewrite Hevs. apply in_or_app. right.
    apply boundary_clang_submitted; assumption.
Qed.

Lemma clang_extra_libs_witness :
  let l := ["clangAST.lib"; "LLVMCore.lib"; "Version.lib";
            libpath_directive
              "/src/external/llvm-project/out/install/Release/lib"] in
  length l = 4%nat /\
  exists c, In (BuildDll (clang_target linux_llvm llvm_args c l))
               (evs (run linux_llvm llvm_args)).
Proof.
  destruct (clang_extra_libs linux_llvm llvm_args
              ["clangAST.lib"; "LLVMCore.lib"] 2 eq_refl eq_refl eq_refl)
    as (H1 & _ & H3).
  split; [exact H1|].
  destruct (H3 (Some "/src/external/llvm-project/out/install/Release") eq_refl)
    as (c & H & _).
  exists c. exact H.
Defined.

(** C7 fails as stated: a [lib] directory that holds exactly one library
    file and a text file gives an extra-library list of four entries, not
    three, and the text file is among them. *)
Lemma other_files_are_linked_too :
  let files := ["LLVMCore.lib"; "README.txt"] in
  walk_top linux_readme "/src/external/llvm-project/out/install/Release/lib"
    = Some files /\
  length (filter is_library_file files) = 1%nat /\
  exists d l,
    In (BuildDll d) (evs (run linux_readme llvm_args)) /\
    libs d = Some l /\
    length l = 4%nat /\
    length l <> (1 + 2)%nat /\
    In "README.txt" l.
Proof.
  split; [reflexivity|]. split; [reflexivity|].
  exists (clang_target linux_readme llvm_args
            (config (st (prelude linux_readme llvm_args
                           (init_state linux_readme))))
            ["LLVMCore.lib"; "README.txt"; "Version.lib";
             libpath_directive
               "/src/external/llvm-project/out/install/Release/lib"]).
  eexists. split; [vm_compute; tauto|].
  split; [reflexivity|]. split; [reflexivity|].
  split; [discriminate | simpl; tauto].
Qed.

Lemma boundary_cpu_only (w : World) (a : Args) (i : option string) (s : St) :
  cfg_cuda_path (config s) = None ->
  (build_llvm a = true -> res (build_clang w a i s) = inr tt) ->
  let d := warp_target w a (config s) None in
  In (BuildDll d) (evs (boundary w a i s)) /\
  In (Print cuda_warning) (evs (boundary w a i s)) /\
  printed (evs (boundary w a i s)) = cuda_warning :: skipn 1 (printed (evs (boundary w a i s))) /\
  (build_dll_ans w d = Ok tt -> res (boundary w a i s) = inr tt).
Proof.
  intros Hc. unfold boundary. unfold_compile.
  destruct (build_llvm a); simpl;
    [intros H; specialize (H eq_refl); revert H | intros _];
    rewrite ?Hc; repeat (next_case; rewrite ?Hc; simpl);
    try (intros H; try discriminate H);
    repeat split; simpl; try tauto; intros E; congruence.
Qed.

(** C8, as the script has it.  The test of line 181 is
    [warp.config.cuda_path is None].  When that attribute is [None] (no GPU
    SDK is found, an empty string being a value), and the run reaches the
    compile phase and the auxiliary target, if there is one, is built, the
    primary target is given to the driver with [cu_path=None]; the warning
    [cuda_warning]
    is the first line the script prints, and it stops nothing: when the
    driver builds the target the run ends normally, with exit status 0. *)
Theorem cpu_only_build (w : World) (a : Args) (i : option string) :
  found_cuda w a = None ->
  res (prelude w a (init_state w)) = inr i ->
  (build_llvm a = true ->
   res (build_clang w a i (st (prelude w a (init_state w)))) = inr tt) ->
  exists c,
    let d := warp_target w a c None in
    cfg_mode c = mode a /\
    cu_path d = None /\
    In (BuildDll d) (evs (run w a)) /\
    In (Print cuda_warning) (evs (run w a)) /\
    hd_error (printed (evs (run w a))) = Some cuda_warning /\
    (build_dll_ans w d = Ok tt ->
     res (run w a) = inr tt /\ exit_status (res (run w a)) = 0).
Proof.
  intros Hf E Hclang.
  destruct (prelude_ok w a _ i E) as (P & Hm & _ & Hc & _).
  destruct (run_reach w a i E) as (Hres & Hevs).
  rewrite Hf in Hc.
  destruct (boundary_cpu_only w a i _ Hc Hclang) as (B1 & B2 & B3 & B4).
  exists (config (st (prelude w a (init_state w)))). simpl.
  rewrite Hevs, printed_app, P, B3, Hres. simpl.
  repeat split; try assumption; try (apply in_or_app; right; assumption);
    now rewrite (B4 H).
Qed.

Lemma cpu_only_build_witness :
  exit_status (res (run linux default_args)) = 0.
Proof.
  destruct (cpu_only_build linux default_args None eq_refl eq_refl)
    as (c & _ & _ & _ & _ & _ & H).
  { intros B. discriminate B. }
  apply H. reflexivity.
Defined.

(** C8 fails as stated: with no [--cuda_path], [CUDA_HOME] unset and
    [CUDA_PATH] set to the empty string, no path of a GPU SDK is discovered,
    the attribute holds the empty string, and yet the primary target
    receives the GPU source and no warning is printed. *)
Lemma empty_cuda_path_builds_gpu_source :
  cuda_path default_args = None /\
  environ linux_empty_cuda_path "CUDA_HOME" = None /\
  environ linux_empty_cuda_path "CUDA_PATH" = Some EmptyString /\
  truthy (found_cuda linux_empty_cuda_path default_args) = false /\
  res (run linux_empty_cuda_path default_args) = inr tt /\
  map cu_path (build_dlls (evs (run linux_empty_cuda_path default_args)))
    = [Some "/src/warp/native/warp.cu"] /\
  printed (evs (run linux_empty_cuda_path default_args)) = [].
Proof. repeat split. Qed.

(** ** The dependency bootstrapper *)

(** How far the build system gets: [n] stages were started, and a stage is
    started only when the one before it has succeeded. *)
Lemma bundled_stages (w : World) (a : Args) (s : St) :
  let bt := capitalize (cfg_mode (config s)) in
  exists n,
    check_calls (evs (bundled_llvm w a s)) = firstn n (stages w bt) /\
    (forall msg, check_call_ans w (cmake_gen w bt) = Raise msg -> (n <= 1)%nat) /\
    (forall msg, check_call_ans w (cmake_build w bt) = Raise msg -> (n <= 2)%nat) /\
    ((1 <= n)%nat ->
     check_call_ans w (cmake_gen w bt) = Ok tt ->
     check_call_ans w (cmake_build w bt) = Ok tt -> n = 3%nat).
Proof.
  unfold_bootstrap. unfold stages.
  run_cases;
    first
      [ (exists 0%nat; split; [reflexivity|]); repeat split; intros; (lia || congruence)
      | (exists 1%nat; split; [reflexivity|]); repeat split; intros; (lia || congruence)
      | (exists 2%nat; split; [reflexivity|]); repeat split; intros; (lia || congruence)
      | (exists 3%nat; split; [reflexivity|]); repeat split; intros; (lia || congruence) ].
Qed.

Lemma run_check_calls (w : World) (a : Args) :
  check_calls (evs (run w a)) = [] \/
  (res (toolchains w a (init_state w)) = inr tt /\
   cfg_mode (config (st (toolchains w a (init_state w)))) = mode a /\
   check_calls (evs (run w a)) =
     check_calls (evs (bundled_llvm w a (st (toolchains w a (init_state w)))))).
Proof.
  destruct (run_phases w a); rewrite Hevs, ?check_calls_app,
    ?toolchains_check_calls, ?boundary_check_calls, ?app_nil_r; simpl;
    [left; reflexivity | right | right];
    subst; destruct (toolchains_ok w a _ Hres1) as (_ & Hm & _); auto.
Qed.

Lemma not_in_firstn_1 (w : World) (bt : string) (n : nat) (argv : list string) :
  (n <= 1)%nat -> argv <> cmake_gen w bt -> ~ In argv (firstn n (stages w bt)).
Proof.
  intros Hn Hne. destruct n as [|[|n]]; simpl; [tauto | | lia].
  intros [H|[]]. congruence.
Qed.

Lemma not_in_firstn_2 (w : World) (bt : string) (n : nat) :
  (n <= 2)%nat -> ~ In (cmake_install w bt) (firstn n (stages w bt)).
Proof.
  intros Hn. destruct n as [|[|[|n]]]; simpl; [tauto | | | lia].
  - intros [H|[]]. now apply cmake_gen_not_install in H.
  - intros [H|[H|[]]].
    + now apply cmake_gen_not_install in H.
    + now apply cmake_build_not_install in H.
Qed.

Lemma bundled_starts_configure (w : World) (a : Args) (s : St) :
  build_llvm a = true ->
  res (checkout w s) = inr tt ->
  In (CheckCall (cmake_gen w (capitalize (cfg_mode (config s)))))
     (evs (bundled_llvm w a s)).
Proof.
  intros B. unfold_bootstrap. unfold fs_add. rewrite B. simpl.
  run_cases; intros H; try discriminate H; simpl; auto 10.
Qed.

(** C5.  With [--build_llvm], once the toolchains are settled and the
    checkout has succeeded, the configure stage is started.  The command
    lines given to [check_call] in a run are the first [n] of configure,
    build, install, in that order, for the build type [mode.capitalize()].
    A stage that fails is the last one: after a failed configure neither
    build nor install is started, after a failed build install is not
    started.  Once configure is started, if it and build succeed, all three
    are started. *)
Theorem cmake_stages_in_order (w : World) (a : Args) :
  let bt := capitalize (mode a) in
  (build_llvm a = true ->
   res (toolchains w a (init_state w)) = inr tt ->
   res (checkout w (st (toolchains w a (init_state w)))) = inr tt ->
   In (CheckCall (cmake_gen w bt)) (evs (run w a))) /\
  (exists n, check_calls (evs (run w a)) = firstn n (stages w bt)) /\
  (forall msg, check_call_ans w (cmake_gen w bt) = Raise msg ->
     ~ In (CheckCall (cmake_build w bt)) (evs (run w a)) /\
     ~ In (CheckCall (cmake_install w bt)) (evs (run w a))) /\
  (forall msg, check_call_ans w (cmake_build w bt) = Raise msg ->
     ~ In (CheckCall (cmake_install w bt)) (evs (run w a))) /\
  (In (CheckCall (cmake_gen w bt)) (evs (run w a)) ->
   check_call_ans w (cmake_gen w bt) = Ok tt ->
   check_call_ans w (cmake_build w bt) = Ok tt ->
   check_calls (evs (run w a)) = stages w bt).
Proof.
  intros bt.
  assert (H : exists n,
    check_calls (evs (run w a)) = firstn n (stages w bt) /\
    (forall msg, check_call_ans w (cmake_gen w bt) = Raise msg -> (n <= 1)%nat) /\
    (forall msg, check_call_ans w (cmake_build w bt) = Raise msg -> (n <= 2)%nat) /\
    ((1 <= n)%nat ->
     check_call_ans w (cmake_gen w bt) = Ok tt ->
     check_call_ans w (cmake_build w bt) = Ok tt -> n = 3%nat)).
  { destruct (run_check_calls w a) as [E|(_ & Hm & E)].
    - exists 0%nat. rewrite E. repeat split; intros; lia.
    - rewrite E. unfold bt. rewrite <- Hm. apply bundled_stages. }
  destruct H as (n & E & H1 & H2 & H3).
  split.
  { intros B T C.
    destruct (toolchains_ok w a _ T) as (_ & Hm & _).
    pose proof (bundled_starts_configure w a _ B C) as S.
    rewrite Hm in S. fold bt in S.
    destruct (run_phases w a); subst; try congruence; rewrite Hevs;
      apply in_or_app; right; [exact S | apply in_or_app; left; exact S]. }
  split; [exists n; exact E|].
  split; [|split].
  - intros msg Hf. rewrite !In_check_calls, E. split.
    + apply not_in_firstn_1; [eauto|].
      intros X. symmetry in X. now apply cmake_gen_not_build in X.
    + apply not_in_firstn_1; [eauto|].
      intros X. symmetry in X. now apply cmake_gen_not_install in X.
  - intros msg Hf. rewrite In_check_calls, E.
    apply not_in_firstn_2. eauto.
  - intros Hin G B. rewrite In_check_calls, E in Hin. rewrite E.
    destruct n as [|n]; [destruct Hin|].
    rewrite (H3 ltac:(lia) G B). reflexivity.
Qed.

Lemma cmake_stages_in_order_witness :
  In (CheckCall (cmake_gen linux_build_fails "Release"))
     (evs (run linux_build_fails llvm_args)) /\
  ~ In (CheckCall (cmake_install linux_build_fails "Release"))
       (evs (run linux_build_fails llvm_args)).
Proof.
  destruct (cmake_stages_in_order linux_build_fails llvm_args)
    as (S & _ & _ & H & _).
  split.
  - apply S; reflexivity.
  - apply (H "cmake returned non-zero exit status 1"). reflexivity.
Defined.

Lemma checkout_leaves_copy (w : World) (s : St) :
  res (checkout w s) = inr tt ->
  fs (st (checkout w s)) (llvm_project_path w) = true.
Proof.
  unfold checkout, call, fs_add, bind. simpl.
  destruct (fs s (llvm_project_path w)) eqn:E; simpl.
  - destruct (repo_open_ans w _); simpl; intros H; [exact E | discriminate H].
  - destruct (clone_from_ans w); simpl; intros H; [|discriminate H].
    now rewrite String.eqb_refl.
Qed.

Lemma cmake_stages_fs (w : World) (s : St) :
  fs (st (cmake_stages w s)) = fs s.
Proof. unfold cmake_stages, check_call, call, bind. run_cases; reflexivity. Qed.

Lemma bootstrap_leaves_copy (w : World) (s : St) :
  res (checkout w s) = inr tt ->
  fs (st (bootstrap w s)) (llvm_project_path w) = true.
Proof.
  intros H. pose proof (checkout_leaves_copy w s H) as C.
  unfold bootstrap. rewrite st_bind, H, cmake_stages_fs. exact C.
Qed.

Lemma bootstrap_existing (w : World) (s : St) :
  fs s (llvm_project_path w) = true ->
  let bt := capitalize (cfg_mode (config s)) in
  forallb (fun e => negb (is_clone e)) (evs (bootstrap w s)) = true /\
  firstn 2 (evs (bootstrap w s)) =
    [PathExists (llvm_project_path w); RepoOpen (llvm_project_path w)] /\
  fs (st (bootstrap w s)) = fs s /\
  (repo_open_ans w (llvm_project_path w) = Ok tt ->
   In (CheckCall (cmake_gen w bt)) (evs (bootstrap w s)) /\
   (check_call_ans w (cmake_gen w bt) = Ok tt ->
    In (CheckCall (cmake_build w bt)) (evs (bootstrap w s)) /\
    (check_call_ans w (cmake_build w bt) = Ok tt ->
     check_calls (evs (bootstrap w s)) = stages w bt))).
Proof.
  intros E. unfold bootstrap, checkout, cmake_stages, check_call, call, bind,
    stages.
  simpl. rewrite E. simpl.
  run_cases; repeat split; try reflexivity; intros; simpl;
    try congruence; tauto.
Qed.

(** C6.  When the working copy of the bundled LLVM is there, the
    bootstrapper clones nothing: it looks the path up, opens the copy with
    [Repo(path)], and leaves the file system as it is.  The build system
    then runs as after a clone: configure is started when the copy opens,
    build when configure succeeds, install when build succeeds, so all
    three when none fails.  After an invocation whose checkout step
    succeeded the copy is there, so an invocation that follows, in whatever
    world with the same path, clones nothing. *)
Theorem existing_copy_is_not_cloned (w : World) (s : St) :
  let p := llvm_project_path w in
  let bt := capitalize (cfg_mode (config s)) in
  (fs s p = true ->
   (forall e, In e (evs (bootstrap w s)) -> is_clone e = false) /\
   firstn 2 (evs (bootstrap w s)) = [PathExists p; RepoOpen p] /\
   fs (st (bootstrap w s)) = fs s /\
   (repo_open_ans w p = Ok tt ->
    In (CheckCall (cmake_gen w bt)) (evs (bootstrap w s)) /\
    (check_call_ans w (cmake_gen w bt) = Ok tt ->
     In (CheckCall (cmake_build w bt)) (evs (bootstrap w s)) /\
     (check_call_ans w (cmake_build w bt) = Ok tt ->
      check_calls (evs (bootstrap w s)) = stages w bt)))) /\
  (forall w',
     llvm_project_path w' = p ->
     res (checkout w s) = inr tt ->
     forall e, In e (evs (bootstrap w' (st (bootstrap w s)))) ->
               is_clone e = false) /\
  (forall a,
     path_exists w p = true ->
     forall e, In e (evs (run w a)) -> is_clone e = false).
Proof.
  intros p bt. split; [|split].
  - intros E. destruct (bootstrap_existing w s E) as (H1 & H2 & H3 & H4).
    split; [|split; [exact H2|split; [exact H3|exact H4]]].
    intros e Hin. rewrite forallb_forall in H1. apply H1 in Hin.
    now destruct (is_clone e).
  - intros w' Hp Hc e Hin.
    pose proof (bootstrap_leaves_copy w s Hc) as C.
    fold p in C. rewrite <- Hp in C.
    destruct (bootstrap_existing w' _ C) as (H1 & _).
    rewrite forallb_forall in H1. apply H1 in Hin.
    now destruct (is_clone e).
  - intros a E e Hin.
    assert (F : forallb (fun e => negb (is_clone e)) (evs (run w a)) = true).
    { assert (B : forall s1, fs s1 = fs (init_state w) ->
                forallb (fun e => negb (is_clone e))
                        (evs (bundled_llvm w a s1)) = true).
      { intros s1 Hs1. unfold bundled_llvm.
        destruct (build_llvm a); [|reflexivity].
        rewrite evs_bind. rewrite forallb_app.
        assert (E1 : fs s1 (llvm_project_path w) = true)
          by (rewrite Hs1; exact E).
        destruct (bootstrap_existing w s1 E1) as (-> & _).
        destruct (res (bootstrap w s1)); reflexivity. }
      destruct (run_phases w a); rewrite Hevs, ?forallb_app,
        toolchains_no_clone, ?boundary_no_clone; simpl; try reflexivity;
        subst s1; rewrite B; try reflexivity; apply toolchains_fs. }
    rewrite forallb_forall in F. apply F in Hin. now destruct (is_clone e).
Qed.

Lemma existing_copy_is_not_cloned_witness :
  check_calls (evs (bootstrap linux_llvm (init_state linux_llvm))) =
    stages linux_llvm "Release" /\
  forallb (fun e => negb (is_clone e))
          (evs (bootstrap linux_llvm (st (bootstrap linux (init_state linux)))))
    = true.
Proof.
  destruct (existing_copy_is_not_cloned linux_llvm (init_state linux_llvm))
    as (H1 & _).
  destruct (existing_copy_is_not_cloned linux (init_state linux))
    as (_ & H2 & _).
  split.
  - apply H1; reflexivity.
  - apply forallb_forall. intros e Hin.
    rewrite (H2 linux_llvm eq_refl eq_refl e Hin). reflexivity.
Defined.

(** ** Failures *)

Ltac split_in H :=
  simpl in H;
  repeat match type of H with
         | _ \/ _ => destruct H as [H|H]
         end;
  try discriminate H; try contradiction H.

Ltac find_prefix :=
  first [ exists []; split; [reflexivity|]
        | eexists [_]; split; [reflexivity|]
        | eexists [_; _]; split; [reflexivity|]
        | eexists [_; _; _]; split; [reflexivity|]
        | eexists [_; _; _; _]; split; [reflexivity|]
        | eexists [_; _; _; _; _]; split; [reflexivity|]
        | eexists [_; _; _; _; _; _]; split; [reflexivity|] ].

(** A failure of the driver is caught by the [except] clause. *)
Lemma boundary_catches (w : World) (a : Args) (i : option string) (s : St)
    (d : BuildDllArgs) (msg : string) :
  In (BuildDll d) (evs (boundary w a i s)) ->
  build_dll_ans w d = Raise msg ->
  res (boundary w a i s) = inl (SystemExit 1) /\
  exists pre,
    evs (boundary w a i s) =
      pre ++ [BuildDll d; Print ("Warp build error: " ++ msg)%string] /\
    (printed pre = [] \/ printed pre = [cuda_warning]).
Proof.
  unfold boundary. unfold_compile.
  run_cases; intros Hin Hans; split_in Hin;
    injection Hin as <-; try congruence;
    (split; [reflexivity|]);
    match goal with
    | H : build_dll_ans w ?d = Raise ?m |- _ =>
        rewrite H in Hans; injection Hans as <-
    end;
    find_prefix; simpl; tauto.
Qed.

(** A failure of a build-system stage ends the bootstrap with the
    exception of [check_call]. *)
Lemma bundled_check_call_fails (w : World) (a : Args) (s : St)
    (argv : list string) (msg : string) :
  In (CheckCall argv) (evs (bundled_llvm w a s)) ->
  check_call_ans w argv = Raise msg ->
  res (bundled_llvm w a s) = inl (Exception msg) /\
  exists pre, evs (bundled_llvm w a s) = pre ++ [CheckCall argv].
Proof.
  unfold_bootstrap.
  run_cases; intros Hin Hans; split_in Hin;
    injection Hin as <-; try congruence;
    match goal with
    | H : check_call_ans w ?d = Raise ?m |- _ =>
        rewrite H in Hans; injection Hans as <-
    end;
    (split; [reflexivity|]);
    first [ exists []; reflexivity
          | eexists [_]; reflexivity
          | eexists [_; _]; reflexivity
          | eexists [_; _; _]; reflexivity
          | eexists [_; _; _; _]; reflexivity ].
Qed.

(** So does a failure of the checkout. *)
Lemma bundled_clone_fails (w : World) (a : Args) (s : St)
    (e : event) (msg : string) :
  In e (evs (bundled_llvm w a s)) ->
  is_clone e = true ->
  clone_from_ans w = Raise msg ->
  res (bundled_llvm w a s) = inl (Exception msg) /\
  exists pre, evs (bundled_llvm w a s) = pre ++ [e].
Proof.
  unfold_bootstrap.
  run_cases; intros Hin Hc Hans; split_in Hin; subst e;
    try discriminate Hc; try congruence.
  injection Hans as <-. split; [reflexivity|]. eexists [_]. reflexivity.
Qed.

Lemma run_in_bundled (w : World) (a : Args) (e : event) :
  spawns e = true ->
  In e (evs (run w a)) ->
  (forall d, e <> BuildDll d) ->
  res (toolchains w a (init_state w)) = inr tt /\
  In e (evs (bundled_llvm w a (st (toolchains w a (init_state w))))).
Proof.
  intros Hs Hin Hnb.
  assert (T : ~ In e (evs (toolchains w a (init_state w)))).
  { intros X. pose proof (toolchains_quiet w a (init_state w)) as F.
    rewrite Forall_forall in F. apply F in X. congruence. }
  assert (B : forall i s, ~ In e (evs (boundary w a i s))).
  { intros i s X. destruct e; try discriminate Hs.
    - pose proof (boundary_no_clone w a i s) as F.
      rewrite forallb_forall in F. apply F in X. discriminate X.
    - apply In_check_calls in X. now rewrite boundary_check_calls in X.
    - now apply (Hnb d). }
  destruct (run_phases w a); rewrite Hevs in Hin; subst;
    repeat (apply in_app_or in Hin; destruct Hin as [Hin|Hin]);
    try contradiction; try (now apply B in Hin); auto.
Qed.

Lemma run_stops_in_bundled (w : World) (a : Args) (e : exn) :
  res (toolchains w a (init_state w)) = inr tt ->
  res (bundled_llvm w a (st (toolchains w a (init_state w)))) = inl e ->
  res (run w a) = inl e /\
  evs (run w a) =
    evs (toolchains w a (init_state w)) ++
    evs (bundled_llvm w a (st (toolchains w a (init_state w)))) /\
  printed (evs (run w a)) = [].
Proof.
  intros H1 H2.
  destruct (toolchains_ok w a _ H1) as (P & _).
  destruct (run_phases w a); subst; try congruence.
  rewrite Hres, Hevs, printed_app, P, bundled_printed.
  repeat split. congruence.
Qed.

(** C2, as the script has it.  The [try] of the script covers the compile
    phase only.  A failure of the compile-and-link driver, for either
    target, is caught there: the script prints one line, [Warp build error:]
    followed by the driver's message, as its last action, after at most the
    CUDA warning, and leaves with [sys.exit(1)].  A failure of the checkout
    or of a build-system stage is raised before the [try] is entered: the
    exception ends the run uncaught, the failing call is the last event and
    the script has printed no message; the interpreter's exit status is 1
    in both cases. *)
Theorem failures_and_the_boundary (w : World) (a : Args) :
  (forall d msg,
     In (BuildDll d) (evs (run w a)) ->
     build_dll_ans w d = Raise msg ->
     res (run w a) = inl (SystemExit 1) /\
     exit_status (res (run w a)) = 1 /\
     exists pre,
       evs (run w a) =
         pre ++ [BuildDll d; Print ("Warp build error: " ++ msg)%string] /\
       (printed pre = [] \/ printed pre = [cuda_warning])) /\
  (forall argv msg,
     In (CheckCall argv) (evs (run w a)) ->
     check_call_ans w argv = Raise msg ->
     res (run w a) = inl (Exception msg) /\
     exit_status (res (run w a)) = 1 /\
     printed (evs (run w a)) = [] /\
     exists pre, evs (run w a) = pre ++ [CheckCall argv]) /\
  (forall e msg,
     In e (evs (run w a)) ->
     is_clone e = true ->
     clone_from_ans w = Raise msg ->
     res (run w a) = inl (Exception msg) /\
     exit_status (res (run w a)) = 1 /\
     printed (evs (run w a)) = [] /\
     exists pre, evs (run w a) = pre ++ [e]).
Proof.
  split; [|split].
  - intros d msg Hin Hans.
    apply run_build_dll in Hin. destruct Hin as (i & E & Hin).
    apply In_build_dlls in Hin.
    destruct (boundary_catches w a i _ d msg Hin Hans) as (R & pre & Ev & P).
    destruct (run_reach w a i E) as (Hres & Hevs).
    destruct (prelude_ok w a _ i E) as (P0 & _).
    rewrite Hres, R, Hevs, Ev. repeat split.
    exists (evs (prelude w a (init_state w)) ++ pre).
    rewrite app_assoc, printed_app, P0. auto.
  - intros argv msg Hin Hans.
    destruct (run_in_bundled w a (CheckCall argv) eq_refl Hin) as (H1 & H2);
      [intros d X; discriminate X|].
    destruct (bundled_check_call_fails w a _ argv msg H2 Hans) as (R & pre & Ev).
    destruct (run_stops_in_bundled w a _ H1 R) as (-> & Hevs & ->).
    repeat split. rewrite Hevs, Ev, app_assoc. eauto.
  - intros e msg Hin Hc Hans.
    assert (Hs : spawns e = true) by (destruct e; try discriminate Hc; reflexivity).
    destruct (run_in_bundled w a e Hs Hin) as (H1 & H2);
      [intros d X; subst e; discriminate Hc|].
    destruct (bundled_clone_fails w a _ e msg H2 Hc Hans) as (R & pre & Ev).
    destruct (run_stops_in_bundled w a _ H1 R) as (-> & Hevs & ->).
    repeat split. rewrite Hevs, Ev, app_assoc. eauto.
Qed.

Lemma failures_and_the_boundary_witness :
  res (run linux_warp_fails default_args) = inl (SystemExit 1) /\
  printed (evs (run linux_warp_fails default_args)) =
    [cuda_warning; "Warp build error: compilation failed"].
Proof.
  destruct (failures_and_the_boundary linux_warp_fails default_args)
    as (H & _).
  destruct (H (warp_target linux_warp_fails default_args
                 (config (st (prelude linux_warp_fails default_args
                                (init_state linux_warp_fails)))) None)
              "compilation failed") as (R & _ & _).
  - vm_compute. tauto.
  - reflexivity.
  - split; [exact R | reflexivity].
Defined.

(** C2 fails as stated: a failed configure stage goes past no handler.  The
    run ends on the exception of [check_call]; the script prints no message
    of its own, and the [except] clause, which would have turned it into
    [sys.exit(1)], is never reached. *)
Lemma configure_failure_escapes :
  build_llvm llvm_args = true /\
  check_call_ans linux_configure_fails
    (cmake_gen linux_configure_fails "Release")
    = Raise "cmake returned non-zero exit status 1" /\
  last (evs (run linux_configure_fails llvm_args)) (PrintArgs llvm_args)
    = CheckCall (cmake_gen linux_configure_fails "Release") /\
  res (run linux_configure_fails llvm_args)
    = inl (Exception "cmake returned non-zero exit status 1") /\
  res (run linux_configure_fails llvm_args) <> inl (SystemExit 1) /\
  printed (evs (run linux_configure_fails llvm_args)) = [].
Proof.
  repeat split; try reflexivity. intros H. vm_compute in H. discriminate H.
Qed.

(** ** The mode *)

Lemma toolchains_obliging (w : World) (a : Args) (s : St) :
  obliging w -> res (toolchains w a s) = inr tt.
Proof.
  intros (Hm & (h & Hh & Ht) & _).
  unfold_toolchains. simpl.
  run_cases; try reflexivity; try congruence; rewrite ?Hm in *;
    try discriminate.
  all: injection Hh as ->;
    match goal with
    | H : negb (truthy ?x) = true, T : truthy ?x = true |- _ =>
        rewrite T in H; discriminate H
    end.
Qed.

Lemma bundled_obliging (w : World) (a : Args) (s : St) :
  obliging w ->
  let bt := capitalize (cfg_mode (config s)) in
  res (bundled_llvm w a s) =
    inr (if build_llvm a then Some (llvm_install_path w bt) else None) /\
  (build_llvm a = true ->
   check_calls (evs (bundled_llvm w a s)) = stages w bt /\
   existsb spawns (evs (bundled_llvm w a s)) = true).
Proof.
  intros (_ & _ & Hc & Ho & Hk & _).
  unfold_bootstrap. simpl. rewrite ?Hc, ?Ho, ?Hk.
  run_cases; rewrite ?Hc, ?Ho, ?Hk in *; simpl;
    repeat (rewrite ?Hk; simpl);
    try discriminate; split; try reflexivity; intros; try discriminate;
    split; reflexivity.
Qed.

Lemma boundary_obliging (w : World) (a : Args) (s : St) :
  obliging w ->
  let i := if build_llvm a
           then Some (llvm_install_path w (capitalize (cfg_mode (config s))))
           else None in
  res (boundary w a i s) = inr tt /\
  exists cu, In (BuildDll (warp_target w a (config s) cu))
                (evs (boundary w a i s)).
Proof.
  intros (_ & _ & _ & _ & _ & Hw & Hb).
  unfold boundary. unfold_compile.
  destruct (build_llvm a); simpl.
  - destruct (walk_top w _) as [l|] eqn:E; [|now apply Hw in E].
    simpl. rewrite Hb. simpl.
    destruct (cfg_cuda_path (config s)); simpl; rewrite Hb; simpl;
      (split; [reflexivity|]); eexists; simpl; eauto 6.
  - destruct (cfg_cuda_path (config s)); simpl; rewrite Hb; simpl;
      (split; [reflexivity|]); eexists; simpl; eauto 6.
Qed.

(** C3, as the script has it.  The mode is not validated.  Whatever string
    [--mode] holds, it is handed unchanged to the driver with every target,
    and its capitalized form is the build type of every build-system
    command line; when no external call fails the run goes through all its
    stages and ends normally, with exit status 0, and with [--build_llvm]
    it has started the checkout or the build system on the way. *)
Theorem mode_is_not_validated (w : World) (a : Args) :
  (forall d, In (BuildDll d) (evs (run w a)) -> bd_mode d = mode a) /\
  (forall argv, In (CheckCall argv) (evs (run w a)) ->
                In argv (stages w (capitalize (mode a)))) /\
  (obliging w ->
   res (run w a) = inr tt /\
   exit_status (res (run w a)) = 0 /\
   (exists c cu, cfg_mode c = mode a /\
                 In (BuildDll (warp_target w a c cu)) (evs (run w a))) /\
   (build_llvm a = true ->
    check_calls (evs (run w a)) = stages w (capitalize (mode a)) /\
    existsb spawns (evs (run w a)) = true)).
Proof.
  split; [|split].
  - intros d Hin. apply run_build_dll in Hin. destruct Hin as (i & E & Hin).
    destruct (prelude_ok w a _ i E) as (_ & Hm & _).
    pose proof (boundary_targets w a i (st (prelude w a (init_state w)))) as F.
    rewrite Forall_forall in F.
    destruct (F d Hin) as [[l ->]|[cu ->]]; exact Hm.
  - intros argv Hin. apply In_check_calls in Hin.
    destruct (run_check_calls w a) as [E|(_ & Hm & E)];
      rewrite E in Hin; [destruct Hin|].
    destruct (bundled_stages w a (st (toolchains w a (init_state w))))
      as (n & En & _).
    rewrite En, Hm in Hin. clear En. revert n Hin.
    generalize (stages w (capitalize (mode a))). intros l.
    induction l as [|x l IH]; intros [|n]; simpl; try tauto.
    intros [H|H]; [auto | right; eauto].
  - intros Ho.
    pose proof (toolchains_obliging w a (init_state w) Ho) as T.
    destruct (toolchains_ok w a _ T) as (_ & Hm & _).
    destruct (bundled_obliging w a (st (toolchains w a (init_state w))) Ho)
      as (B & Bc).
    destruct (boundary_obliging w a
                (st (bundled_llvm w a (st (toolchains w a (init_state w))))) Ho)
      as (K & cu & Kin).
    rewrite bundled_config in K, Kin.
    destruct (run_phases w a); subst; try congruence.
    rewrite Hres2 in B. injection B as ->.
    rewrite Hres, Hevs, K. repeat split.
    + exists (config (st (toolchains w a (init_state w)))), cu.
      split; [exact Hm|]. apply in_or_app. right. apply in_or_app. now right.
    + rewrite !check_calls_app, toolchains_check_calls, boundary_check_calls,
        app_nil_r. simpl. rewrite <- Hm. now apply Bc.
    + rewrite !existsb_app. destruct (Bc H) as (_ & ->).
      now rewrite orb_true_r.
Qed.

Lemma linux_fresh_obliging : obliging linux_fresh.
Proof.
  repeat split; try reflexivity; try discriminate.
  exists (Some "cc"). split; reflexivity.
Qed.

Lemma mode_is_not_validated_witness :
  exit_status (res (run linux_fresh fast_args)) = 0.
Proof.
  destruct (mode_is_not_validated linux_fresh fast_args) as (_ & _ & H).
  apply H. exact linux_fresh_obliging.
Defined.

(** C3 fails as stated: the mode [fast] is neither [release] nor [debug],
    and the script rejects nothing.  It clones the LLVM sources, runs the
    three build-system stages with the build type [Fast], gives both
    targets to the driver with the mode [fast], and ends normally. *)
Lemma unknown_mode_is_built :
  mode fast_args <> "release" /\
  mode fast_args <> "debug" /\
  res (run linux_fresh fast_args) = inr tt /\
  In (CloneFrom llvm_url "/src/external/llvm-project" true "llvmorg-15.0.7" 1)
     (evs (run linux_fresh fast_args)) /\
  check_calls (evs (run linux_fresh fast_args)) = stages linux_fresh "Fast" /\
  map bd_mode (build_dlls (evs (run linux_fresh fast_args))) = ["fast"; "fast"].
Proof.
  split; [intros H; discriminate H|].
  split; [intros H; discriminate H|].
  split; [reflexivity|].
  split; [vm_compute; tauto|].
  split; reflexivity.
Qed.

(** * Further properties of the script *)

Lemma last_app_cons {A} (l : list A) (x d : A) (t : list A) :
  last (l ++ x :: t) d = last (x :: t) d.
Proof.
  induction l as [|y l IH]; [reflexivity|].
  simpl app. rewrite <- IH. simpl. destruct (l ++ x :: t) eqn:E; [|reflexivity].
  now destruct l.
Qed.

Lemma run_forallb (P : event -> bool) (w : World) (a : Args) :
  forallb P (evs (toolchains w a (init_state w))) = true ->
  (forall s, forallb P (evs (bundled_llvm w a s)) = true) ->
  (forall i s, forallb P (evs (boundary w a i s)) = true) ->
  forallb P (evs (run w a)) = true.
Proof.
  intros T B K.
  destruct (run_phases w a); rewrite Hevs, ?forallb_app, T, ?B, ?K;
    reflexivity.
Qed.

(** ** The GPU SDK (lines 43-60) *)

(** Off [darwin] and without a [--cuda_path], [CUDA_HOME] comes first:
    [CUDA_PATH] is read only when [CUDA_HOME] is unset or empty, and is
    then the answer as it stands. *)
Theorem cuda_home_before_cuda_path (w : World) (a : Args) (s : St) :
  sys_platform w <> "darwin" ->
  truthy (cuda_path a) = false ->
  cfg_cuda_path (config (st (setup_cuda w a s))) =
    (if truthy (environ w "CUDA_HOME") then environ w "CUDA_HOME"
     else environ w "CUDA_PATH") /\
  evs (setup_cuda w a s) =
    EnvironGet "CUDA_HOME" ::
    (if truthy (environ w "CUDA_HOME") then [] else [EnvironGet "CUDA_PATH"]) /\
  found_cuda w a = cfg_cuda_path (config (st (setup_cuda w a s))).
Proof.
  intros Hd He. apply String.eqb_neq in Hd.
  unfold found_cuda, py_or, setup_cuda, find_cuda, environ_get, bind.
  rewrite Hd, He. simpl.
  destruct (truthy (environ w "CUDA_HOME")); simpl; repeat split.
Qed.

Lemma cuda_home_before_cuda_path_witness :
  cfg_cuda_path (config (st (setup_cuda linux_cuda_env default_args
                               (init_state linux_cuda_env))))
  = Some "/usr/local/cuda".
Proof.
  destruct (cuda_home_before_cuda_path linux_cuda_env default_args
              (init_state linux_cuda_env)) as (H & _).
  - intros E. discriminate E.
  - reflexivity.
  - exact H.
Defined.

Lemma toolchains_explicit_cuda (w : World) (a : Args) (s : St) :
  sys_platform w <> "darwin" ->
  truthy (cuda_path a) = true ->
  forallb (fun e => negb (is_environ_get e)) (evs (toolchains w a s)) = true.
Proof.
  intros Hd He. apply String.eqb_neq in Hd.
  unfold_toolchains. rewrite Hd, He.
  run_cases; reflexivity.
Qed.

(** Off [darwin] a non-empty [--cuda_path] is taken as it is, and no
    environment variable is read in the whole run. *)
Theorem explicit_cuda_path_is_kept (w : World) (a : Args) (s : St) :
  sys_platform w <> "darwin" ->
  truthy (cuda_path a) = true ->
  cfg_cuda_path (config (st (setup_cuda w a s))) = cuda_path a /\
  found_cuda w a = cuda_path a /\
  forall name, ~ In (EnvironGet name) (evs (run w a)).
Proof.
  intros Hd He. pose proof Hd as Hd'. apply String.eqb_neq in Hd'.
  unfold found_cuda, setup_cuda. rewrite Hd', He. repeat split.
  intros name Hin.
  assert (F : forallb (fun e => negb (is_environ_get e)) (evs (run w a)) = true).
  { apply run_forallb.
    - now apply toolchains_explicit_cuda.
    - apply bundled_no_environ.
    - apply boundary_no_environ. }
  rewrite forallb_forall in F. apply F in Hin. discriminate Hin.
Qed.

Lemma explicit_cuda_path_is_kept_witness :
  found_cuda linux_cuda_env cuda_args = Some "/cuda".
Proof.
  destruct (explicit_cuda_path_is_kept linux_cuda_env cuda_args
              (init_state linux_cuda_env)) as (_ & H & _).
  - intros E. discriminate E.
  - reflexivity.
  - exact H.
Defined.

Lemma error_line_not_warning (msg : string) : error_line msg <> cuda_warning.
Proof. unfold error_line, cuda_warning. intros H. lazy in H. discriminate H. Qed.

Lemma boundary_with_gpu (w : World) (a : Args) (i : option string) (s : St)
    (p : string) :
  cfg_cuda_path (config s) = Some p ->
  (build_llvm a = true -> res (build_clang w a i s) = inr tt) ->
  In (BuildDll (warp_target w a (config s) (gpu_source w (Some p))))
     (evs (boundary w a i s)) /\
  ~ In cuda_warning (printed (evs (boundary w a i s))).
Proof.
  intros Hc. unfold boundary. unfold_compile.
  destruct (build_llvm a); simpl;
    [intros H; specialize (H eq_refl); revert H | intros _];
    rewrite ?Hc; simpl; repeat (next_case; rewrite ?Hc; simpl);
    try (intros H; try discriminate H);
    (split; [simpl; auto 10|]); simpl; try tauto;
    intros [X|[]]; now apply error_line_not_warning in X.
Qed.

(** The GPU source follows the GPU SDK that was found, not its value: when
    some path was found, be it the empty string an empty [CUDA_PATH] gives,
    and the run reaches the primary target, the driver receives
    [native/warp.cu] under [build_path] and the CUDA warning is not
    printed. *)
Theorem gpu_source_when_found (w : World) (a : Args) (i : option string)
    (p : string) :
  found_cuda w a = Some p ->
  res (prelude w a (init_state w)) = inr i ->
  (build_llvm a = true ->
   res (build_clang w a i (st (prelude w a (init_state w)))) = inr tt) ->
  exists c,
    let d := warp_target w a c (gpu_source w (found_cuda w a)) in
    cu_path d = Some (os_path_join w (build_path w) "native/warp.cu") /\
    In (BuildDll d) (evs (run w a)) /\
    ~ In cuda_warning (printed (evs (run w a))).
Proof.
  intros Hf E Hclang.
  destruct (prelude_ok w a _ i E) as (P & _ & _ & Hc & _).
  destruct (run_reach w a i E) as (_ & Hevs).
  rewrite Hf in Hc.
  destruct (boundary_with_gpu w a i _ p Hc Hclang) as (B1 & B2).
  exists (config (st (prelude w a (init_state w)))). simpl.
  rewrite Hf, Hevs, printed_app, P. simpl.
  repeat split; [apply in_or_app; right; exact B1 | exact B2].
Qed.

Lemma gpu_source_when_found_witness :
  found_cuda linux_empty_cuda_path default_args = Some EmptyString /\
  ~ In cuda_warning (printed (evs (run linux_empty_cuda_path default_args))).
Proof.
  split; [reflexivity|].
  destruct (gpu_source_when_found linux_empty_cuda_path default_args None
              EmptyString eq_refl eq_refl) as (c & _ & _ & H).
  { intros B. discriminate B. }
  exact H.
Defined.

(** ** The build plan *)

Lemma boundary_plan (w : World) (a : Args) (i : option string) (s : St) :
  build_dlls (evs (boundary w a i s)) = [] \/
  (exists l msg,
     build_llvm a = true /\
     build_dlls (evs (boundary w a i s)) = [clang_target w a (config s) l] /\
     build_dll_ans w (clang_target w a (config s) l) = Raise msg) \/
  (exists l cu,
     build_llvm a = true /\
     build_dlls (evs (boundary w a i s)) =
       [clang_target w a (config s) l; warp_target w a (config s) cu] /\
     build_dll_ans w (clang_target w a (config s) l) = Ok tt) \/
  (exists cu,
     build_llvm a = false /\
     build_dlls (evs (boundary w a i s)) = [warp_target w a (config s) cu]).
Proof.
  unfold boundary. unfold_compile.
  destruct (build_llvm a); simpl; repeat (next_case);
    try (left; reflexivity);
    try (right; left; do 2 eexists; repeat split; eassumption);
    try (right; right; left; do 2 eexists; repeat split;
         match goal with H : _ = Ok ?u |- _ => destruct u; exact H end);
    right; right; right; eexists; split; reflexivity.
Qed.

(** The targets of a run are a beginning of its plan: with [--build_llvm]
    the auxiliary target, then the primary one; without it the primary one
    alone.  The primary target is submitted only after the auxiliary one
    was built, no target is submitted twice, and both carry the mode of the
    command line. *)
Theorem targets_follow_the_plan (w : World) (a : Args) :
  exists c l cu n,
    cfg_mode c = mode a /\
    build_dlls (evs (run w a)) = firstn n (plan w a c l cu) /\
    (forall msg,
       build_llvm a = true ->
       build_dll_ans w (clang_target w a c l) = Raise msg ->
       (n <= 1)%nat) /\
    NoDup (build_dlls (evs (run w a))).
Proof.
  destruct (res (prelude w a (init_state w))) as [e|i] eqn:E.
  - destruct (run_stop w a e E) as (_ & ->). rewrite prelude_build_dlls.
    exists {| cfg_verbose := verbose a; cfg_mode := mode a;
              cfg_verify_fp := verify_fp a; cfg_fast_math := fast_math a;
              cfg_cuda_path := None; cfg_host_compiler := None |},
           [], None, 0%nat.
    repeat split; try (intros; lia); constructor.
  - destruct (run_reach w a i E) as (_ & ->).
    destruct (prelude_ok w a _ i E) as (_ & Hm & _).
    rewrite build_dlls_app, prelude_build_dlls. simpl.
    set (s := st (prelude w a (init_state w))) in *.
    destruct (boundary_plan w a i s)
      as [H|[(l & msg & B & H & F)|[(l & cu & B & H & F)|(cu & B & H)]]];
      rewrite H.
    + exists (config s), [], None, 0%nat.
      repeat split; try assumption; try (intros; lia); constructor.
    + exists (config s), l, None, 1%nat. unfold plan. rewrite B.
      repeat split; try assumption; try (intros; lia).
      repeat constructor. simpl. tauto.
    + exists (config s), l, cu, 2%nat. unfold plan. rewrite B.
      repeat split; try assumption.
      * intros msg _ X. rewrite F in X. discriminate X.
      * repeat constructor; simpl; try tauto.
        intros [X|[]]. discriminate X.
    + exists (config s), [], cu, 1%nat. unfold plan. rewrite B.
      repeat split; try assumption; try (intros; discriminate).
      repeat constructor. simpl. tauto.
Qed.

Lemma bundled_not_asked (w : World) (a : Args) (s : St) :
  build_llvm a = false -> evs (bundled_llvm w a s) = [].
Proof. unfold bundled_llvm. intros ->. reflexivity. Qed.

Lemma toolchains_no_bootstrap (w : World) (a : Args) (s : St) :
  forallb (fun e => negb (is_bootstrap_event e)) (evs (toolchains w a s)) = true.
Proof. unfold_toolchains. run_cases; reflexivity. Qed.

Lemma boundary_no_bootstrap (w : World) (a : Args) (i : option string) (s : St) :
  build_llvm a = false ->
  forallb (fun e => negb (is_bootstrap_event e)) (evs (boundary w a i s)) = true.
Proof.
  intros B. unfold boundary. unfold_compile. rewrite B.
  run_cases; reflexivity.
Qed.

(** Without [--build_llvm] the dependency bootstrapper is not run at all:
    the run looks up no working copy, clones and opens none, starts no
    build-system stage and lists no directory; and the driver receives at
    most one target, the primary one. *)
Theorem no_bootstrap_unless_asked (w : World) (a : Args) :
  build_llvm a = false ->
  (forall e, In e (evs (run w a)) -> is_bootstrap_event e = false) /\
  (forall d, In (BuildDll d) (evs (run w a)) ->
             exists c cu, d = warp_target w a c cu) /\
  (length (build_dlls (evs (run w a))) <= 1)%nat.
Proof.
  intros B. split; [|split].
  - assert (F : forallb (fun e => negb (is_bootstrap_event e))
                        (evs (run w a)) = true).
    { apply run_forallb.
      - apply toolchains_no_bootstrap.
      - intros s. now rewrite bundled_not_asked.
      - intros i s. now apply boundary_no_bootstrap. }
    intros e Hin. rewrite forallb_forall in F. apply F in Hin.
    now destruct (is_bootstrap_event e).
  - intros d Hin. apply run_build_dll in Hin. destruct Hin as (i & E & Hin).
    destruct (boundary_plan w a i (st (prelude w a (init_state w))))
      as [H|[(l & msg & B' & _)|[(l & cu & B' & _)|(cu & _ & H)]]];
      try congruence; rewrite H in Hin.
    + destruct Hin.
    + destruct Hin as [<-|[]]. eauto.
  - destruct (res (prelude w a (init_state w))) as [e|i] eqn:E.
    + destruct (run_stop w a e E) as (_ & ->).
      rewrite prelude_build_dlls. simpl. lia.
    + destruct (run_reach w a i E) as (_ & ->).
      rewrite build_dlls_app, prelude_build_dlls. simpl.
      destruct (boundary_plan w a i (st (prelude w a (init_state w))))
        as [H|[(l & msg & B' & _)|[(l & cu & B' & _)|(cu & _ & H)]]];
        try congruence; rewrite H; simpl; lia.
Qed.

Lemma no_bootstrap_unless_asked_witness :
  (length (build_dlls (evs (run linux default_args))) <= 1)%nat.
Proof.
  apply (no_bootstrap_unless_asked linux default_args). reflexivity.
Defined.

(** ** Errors inside the [try] *)

Lemma boundary_unlistable (w : World) (a : Args) (ip : string) (s : St) :
  build_llvm a = true ->
  walk_top w (os_path_join w ip "lib") = None ->
  res (boundary w a (Some ip) s) = inl (SystemExit 1) /\
  evs (boundary w a (Some ip) s) =
    [Walk (os_path_join w ip "lib");
     Print (error_line "name 'libs' is not defined")].
Proof.
  intros B H. unfold boundary. unfold_compile. rewrite B. simpl. rewrite H.
  simpl. split; reflexivity.
Qed.

(** With [--build_llvm], when the [lib] directory of the install prefix
    yields nothing to [os.walk] (it is not there, or cannot be read), line
    154 raises [NameError] inside the [try]: the script prints one error
    line with the interpreter's message and exits with status 1, and the
    driver is given no target, not even the primary one. *)
Theorem unlistable_install_dir (w : World) (a : Args) (i : option string) :
  build_llvm a = true ->
  res (prelude w a (init_state w)) = inr i ->
  walk_top w
    (os_path_join w (llvm_install_path w (capitalize (mode a))) "lib") = None ->
  res (run w a) = inl (SystemExit 1) /\
  exit_status (res (run w a)) = 1 /\
  build_dlls (evs (run w a)) = [] /\
  printed (evs (run w a)) = [error_line "name 'libs' is not defined"] /\
  last (evs (run w a)) (PrintArgs a) =
    Print (error_line "name 'libs' is not defined").
Proof.
  intros B E H.
  destruct (run_reach w a i E) as (Hres & Hevs).
  destruct (prelude_ok w a _ i E) as (P & _ & _ & _ & Hi).
  rewrite B in Hi. subst i.
  destruct (boundary_unlistable w a _ (st (prelude w a (init_state w))) B H)
    as (R & Ev).
  rewrite Hres, Hevs, R, Ev, build_dlls_app, printed_app, P,
    prelude_build_dlls.
  repeat split. now rewrite last_app_cons.
Qed.

Lemma unlistable_install_dir_witness :
  printed (evs (run linux_no_lib llvm_args)) =
    [error_line "name 'libs' is not defined"].
Proof.
  apply (unlistable_install_dir linux_no_lib llvm_args
           (Some "/src/external/llvm-project/out/install/Release"));
    reflexivity.
Defined.

(** ** How a run ends *)

Lemma toolchains_end (w : World) (a : Args) (s : St) :
  match res (toolchains w a s) with
  | inr _ => printed (evs (toolchains w a s)) = []
  | inl (Exception _) => printed (evs (toolchains w a s)) = []
  | inl (SystemExit code) =>
      code = 1 /\
      printed (evs (toolchains w a s)) = [msvc_error] /\
      last (evs (toolchains w a s)) (PrintArgs a) = Print msvc_error
  end.
Proof. unfold_toolchains. run_cases; repeat split. Qed.

Lemma bundled_end (w : World) (a : Args) (s : St) (code : Z) :
  res (bundled_llvm w a s) <> inl (SystemExit code).
Proof. unfold_bootstrap. run_cases; discriminate. Qed.

Lemma boundary_end (w : World) (a : Args) (i : option string) (s : St) :
  (res (boundary w a i s) = inr tt /\
   exists pre cu,
     evs (boundary w a i s) =
       pre ++ [BuildDll (warp_target w a (config s) cu)] /\
     build_dll_ans w (warp_target w a (config s) cu) = Ok tt /\
     (printed pre = [] \/ printed pre = [cuda_warning])) \/
  (res (boundary w a i s) = inl (SystemExit 1) /\
   exists pre msg,
     evs (boundary w a i s) = pre ++ [Print (error_line msg)] /\
     (printed pre = [] \/ printed pre = [cuda_warning])).
Proof.
  unfold boundary. unfold_compile. unfold error_line.
  run_cases; repeat match goal with u : unit |- _ => destruct u end;
    [> (left + right); (split; [reflexivity|]);
       first [ exists []; eexists; split; [reflexivity|]
             | eexists [_]; eexists; split; [reflexivity|]
             | eexists [_; _]; eexists; split; [reflexivity|]
             | eexists [_; _; _]; eexists; split; [reflexivity|]
             | eexists [_; _; _; _]; eexists; split; [reflexivity|] ];
       simpl; try tauto; (split; [assumption | tauto]) ..].
Qed.

Lemma msvc_error_line : msvc_error = error_line "Could not find MSVC compiler".
Proof. reflexivity. Qed.

(** Of a run whose command line parses, so that line 28 returns the
    namespace [a] and the script goes on ([argparse] itself ends the process
    with status 2 on a bad command line and with 0 on [-h]; that is before
    what is modelled here).  The exit status of such a run is 0 or 1.  It is
    0 only when the last thing
    the run did was to have the driver build the primary target.  A
    [sys.exit] always carries the code 1 and always follows an error line
    of the script, its last action.  An exception that ends the run
    uncaught was raised before the [try]: the script has printed no
    message then. *)
Theorem how_a_run_ends (w : World) (a : Args) :
  (exit_status (res (run w a)) = 0 \/ exit_status (res (run w a)) = 1) /\
  (exit_status (res (run w a)) = 0 ->
   exists c cu,
     last (evs (run w a)) (PrintArgs a) = BuildDll (warp_target w a c cu) /\
     build_dll_ans w (warp_target w a c cu) = Ok tt) /\
  (forall code,
     res (run w a) = inl (SystemExit code) ->
     code = 1 /\
     exists msg, last (evs (run w a)) (PrintArgs a) = Print (error_line msg)) /\
  (forall msg,
     res (run w a) = inl (Exception msg) -> printed (evs (run w a)) = []).
Proof.
  destruct (run_phases w a).
  - pose proof (toolchains_end w a (init_state w)) as T.
    rewrite Hres1 in T. rewrite Hres, Hevs.
    destruct e as [msg|code]; simpl; (split; [|split; [|split]]).
    + now right.
    + intros X. discriminate X.
    + intros c X. discriminate X.
    + intros _ _. exact T.
    + destruct T as (-> & _). now right.
    + destruct T as (-> & _). intros X. discriminate X.
    + destruct T as (-> & P & L). intros c X. injection X as <-.
      split; [reflexivity|]. rewrite L.
      exists "Could not find MSVC compiler". now rewrite msvc_error_line.
    + intros m X. discriminate X.
  - subst s1. pose proof (toolchains_end w a (init_state w)) as T.
    rewrite Hres1 in T. rewrite Hres, Hevs, printed_app, T, bundled_printed.
    destruct e as [msg|code]; [|now apply bundled_end in Hres2].
    simpl. split; [|split; [|split]].
    + now right.
    + intros X. discriminate X.
    + intros c X. discriminate X.
    + reflexivity.
  - subst s1. rewrite Hres, Hevs, !app_assoc.
    destruct (boundary_end w a installed s2)
      as [(R & pre & cu & Ev & Ok' & _)|(R & pre & msg & Ev & _)];
      rewrite R, Ev, !app_assoc, last_app_cons; simpl;
      (split; [|split; [|split]]).
    + now left.
    + intros _. eauto.
    + intros c X. discriminate X.
    + intros m X. discriminate X.
    + now right.
    + intros X. discriminate X.
    + intros c X. injection X as <-. eauto.
    + intros m X. discriminate X.
Qed.

Lemma how_a_run_ends_witness :
  exists c cu,
    last (evs (run linux default_args)) (PrintArgs default_args) =
      BuildDll (warp_target linux default_args c cu).
Proof.
  destruct (how_a_run_ends linux default_args) as (_ & H & _).
  destruct (H eq_refl) as (c & cu & L & _). eauto.
Defined.

(** What the script prints, by the way the run ends, once the command line
    has parsed (line 28 has returned the namespace [a]; the exits of
    [argparse] itself are before what is modelled).  A run that gets
    through prints nothing, or the CUDA warning alone.  A run that leaves
    by one of the script's own [sys.exit] calls (lines 76 and 205) prints
    one error line, as its last message, after at most the CUDA warning. *)
Theorem messages_of_a_run (w : World) (a : Args) :
  (res (run w a) = inr tt ->
   printed (evs (run w a)) = [] \/ printed (evs (run w a)) = [cuda_warning]) /\
  (forall code,
     res (run w a) = inl (SystemExit code) ->
     exists msg,
       printed (evs (run w a)) = [error_line msg] \/
       printed (evs (run w a)) = [cuda_warning; error_line msg]).
Proof.
  destruct (run_phases w a).
  - pose proof (toolchains_end w a (init_state w)) as T.
    rewrite Hres1 in T. rewrite Hres, Hevs.
    split; [discriminate|]. intros code X. injection X as ->.
    destruct T as (_ & -> & _). exists "Could not find MSVC compiler".
    left. now rewrite msvc_error_line.
  - rewrite Hres. split; [discriminate|]. intros code X. injection X as ->.
    now apply bundled_end in Hres2.
  - subst s1. pose proof (toolchains_end w a (init_state w)) as T.
    rewrite Hres1 in T.
    rewrite Hres, Hevs, !printed_app, T, bundled_printed. simpl.
    destruct (boundary_end w a installed s2)
      as [(R & pre & cu & Ev & _ & P)|(R & pre & msg & Ev & P)];
      rewrite R, Ev, printed_app; simpl.
    + split; [|discriminate]. intros _. rewrite app_nil_r. exact P.
    + split; [discriminate|]. intros code _. exists msg.
      destruct P as [-> | ->]; simpl; auto.
Qed.

Lemma messages_of_a_run_witness :
  printed (evs (run linux default_args)) = [] \/
  printed (evs (run linux default_args)) = [cuda_warning].
Proof.
  destruct (messages_of_a_run linux default_args) as (H & _).
  apply H. reflexivity.
Defined.

(** ** The host compiler (lines 64-76) *)

Lemma bundled_no_host (w : World) (a : Args) (s : St) :
  forallb (fun e => negb (is_host_event e)) (evs (bundled_llvm w a s)) = true.
Proof. unfold_bootstrap. run_cases; reflexivity. Qed.

Lemma boundary_no_host (w : World) (a : Args) (i : option string) (s : St) :
  forallb (fun e => negb (is_host_event e)) (evs (boundary w a i s)) = true.
Proof. unfold boundary. unfold_compile. run_cases; reflexivity. Qed.

Lemma toolchains_off_nt (w : World) (a : Args) (s : St) :
  os_name w <> "nt" ->
  res (toolchains w a s) = inr tt /\
  forallb (fun e => negb (is_host_event e)) (evs (toolchains w a s)) = true /\
  cfg_host_compiler (config (st (toolchains w a s))) =
    cfg_host_compiler (config s).
Proof.
  intros H. apply String.eqb_neq in H.
  unfold_toolchains. rewrite H. run_cases; repeat split.
Qed.

(** Off Windows ([os.name] is not [nt]) the host compiler is left alone:
    neither [set_msvc_compiler] nor [find_host_compiler] is called in the
    whole run, whatever [--msvc_path] and [--sdk_path] hold, the attribute
    [warp.config.host_compiler] keeps its value, and the run cannot stop
    before the bundled LLVM or the compile phase. *)
Theorem host_compiler_left_alone_off_nt (w : World) (a : Args) :
  os_name w <> "nt" ->
  (forall e, In e (evs (run w a)) -> is_host_event e = false) /\
  res (toolchains w a (init_state w)) = inr tt /\
  cfg_host_compiler (config (st (toolchains w a (init_state w)))) =
    cfg_host_compiler (config0 w).
Proof.
  intros H. destruct (toolchains_off_nt w a (init_state w) H) as (R & F & C).
  split; [|split; assumption].
  assert (G : forallb (fun e => negb (is_host_event e)) (evs (run w a)) = true).
  { apply run_forallb; [exact F | apply bundled_no_host | apply boundary_no_host]. }
  intros e Hin. rewrite forallb_forall in G. apply G in Hin.
  now destruct (is_host_event e).
Qed.

Lemma host_compiler_left_alone_off_nt_witness :
  res (toolchains linux msvc_args (init_state linux)) = inr tt.
Proof.
  apply (host_compiler_left_alone_off_nt linux msvc_args).
  intros E. discriminate E.
Defined.

Lemma toolchains_explicit_msvc (w : World) (a : Args) (s : St) :
  os_name w = "nt" ->
  truthy (py_and (sdk_path a) (msvc_path a)) = true ->
  In (SetMsvcCompiler (msvc_path a) (sdk_path a)) (evs (toolchains w a s)) /\
  forallb (fun e => match e with FindHostCompiler => false | _ => true end)
          (evs (toolchains w a s)) = true /\
  printed (evs (toolchains w a s)) = [] /\
  cfg_host_compiler (config (st (toolchains w a s))) =
    cfg_host_compiler (config s) /\
  res (toolchains w a s) =
    match set_msvc_compiler_ans w (msvc_path a) (sdk_path a) with
    | Ok _ => inr tt
    | Raise msg => inl (Exception msg)
    end.
Proof.
  intros Hn He. unfold_toolchains. rewrite Hn, String.eqb_refl, He.
  run_cases; (split; [simpl; auto 10|]); repeat split;
    repeat match goal with u : unit |- _ => destruct u end; reflexivity.
Qed.

(** On Windows, when both [--sdk_path] and [--msvc_path] are given and not
    empty, the pair goes to [set_msvc_compiler] as it is and the
    environment is not searched: [find_host_compiler] is never called.  If
    [set_msvc_compiler] raises, the exception ends the run uncaught, before
    any message, checkout, build-system stage or compilation. *)
Theorem explicit_host_compiler_is_set (w : World) (a : Args) :
  os_name w = "nt" ->
  truthy (py_and (sdk_path a) (msvc_path a)) = true ->
  In (SetMsvcCompiler (msvc_path a) (sdk_path a)) (evs (run w a)) /\
  ~ In FindHostCompiler (evs (run w a)) /\
  (forall msg,
     set_msvc_compiler_ans w (msvc_path a) (sdk_path a) = Raise msg ->
     res (run w a) = inl (Exception msg) /\
     printed (evs (run w a)) = [] /\
     Forall (fun e => spawns e = false) (evs (run w a))).
Proof.
  intros Hn He.
  destruct (toolchains_explicit_msvc w a (init_state w) Hn He)
    as (L & F & P & _ & R).
  split; [|split].
  - destruct (run_phases w a); rewrite Hevs; repeat (apply in_or_app; left);
      exact L.
  - assert (G : forallb (fun e => match e with
                                  | FindHostCompiler => false
                                  | _ => true
                                  end) (evs (run w a)) = true).
    { apply run_forallb; [exact F | |].
      - intros s. unfold_bootstrap. run_cases; reflexivity.
      - intros i s. unfold boundary. unfold_compile. run_cases; reflexivity. }
    intros Hin. rewrite forallb_forall in G. apply G in Hin. discriminate Hin.
  - intros msg Hm. rewrite Hm in R.
    destruct (run_phases w a); try congruence.
    rewrite Hres, Hevs, P. repeat split; [congruence|].
    apply toolchains_quiet.
Qed.

Lemma explicit_host_compiler_is_set_witness :
  In (SetMsvcCompiler (Some "C:/msvc") (Some "C:/sdk"))
     (evs (run windows_bare msvc_args)).
Proof.
  apply (explicit_host_compiler_is_set windows_bare msvc_args); reflexivity.
Defined.

Lemma toolchains_search (w : World) (a : Args) (s : St) :
  os_name w = "nt" ->
  truthy (py_and (sdk_path a) (msvc_path a)) = false ->
  In FindHostCompiler (evs (toolchains w a s)) /\
  forallb (fun e => match e with SetMsvcCompiler _ _ => false | _ => true end)
          (evs (toolchains w a s)) = true.
Proof.
  intros Hn He. unfold_toolchains.
  rewrite Hn, String.eqb_refl, He.
  run_cases; split; simpl; auto 10.
Qed.

Lemma toolchains_found_host (w : World) (a : Args) (s : St) (h : pystr) :
  os_name w = "nt" ->
  truthy (py_and (sdk_path a) (msvc_path a)) = false ->
  find_host_compiler_ans w = Ok h ->
  truthy h = true ->
  res (toolchains w a s) = inr tt /\
  cfg_host_compiler (config (st (toolchains w a s))) = h.
Proof.
  intros Hn He Hf Ht. unfold_toolchains.
  rewrite Hn, String.eqb_refl, He, Hf.
  simpl; rewrite ?Ht; simpl; repeat (next_case; rewrite ?Ht; simpl);
    repeat split; simpl; auto 10.
Qed.

(** On Windows, when [--sdk_path] and [--msvc_path] are not both given, a
    path given alone is not used, whatever the search then finds:
    [set_msvc_compiler] is never called in the run and the environment is
    searched with [find_host_compiler].  A compiler found there is stored
    in [warp.config.host_compiler] and lets the run go on. *)
Theorem lone_explicit_path_is_ignored (w : World) (a : Args) :
  os_name w = "nt" ->
  truthy (py_and (sdk_path a) (msvc_path a)) = false ->
  In FindHostCompiler (evs (run w a)) /\
  (forall m k, ~ In (SetMsvcCompiler m k) (evs (run w a))) /\
  (forall h,
     find_host_compiler_ans w = Ok h ->
     truthy h = true ->
     res (toolchains w a (init_state w)) = inr tt /\
     cfg_host_compiler (config (st (toolchains w a (init_state w)))) = h).
Proof.
  intros Hn He.
  destruct (toolchains_search w a (init_state w) Hn He) as (I & F).
  split; [|split].
  - destruct (run_phases w a); rewrite Hevs; repeat (apply in_or_app; left);
      exact I.
  - assert (G : forallb (fun e => match e with
                                  | SetMsvcCompiler _ _ => false
                                  | _ => true
                                  end) (evs (run w a)) = true).
    { apply run_forallb; [exact F | |].
      - intros s. unfold_bootstrap. run_cases; reflexivity.
      - intros i s. unfold boundary. unfold_compile. run_cases; reflexivity. }
    intros m k Hin. rewrite forallb_forall in G. apply G in Hin.
    discriminate Hin.
  - intros h Hf Ht. now apply toolchains_found_host.
Qed.

Lemma lone_explicit_path_is_ignored_witness :
  msvc_path msvc_only_args = Some "C:/msvc" /\
  In FindHostCompiler (evs (run windows_bare msvc_only_args)) /\
  cfg_host_compiler
    (config (st (toolchains windows_vs msvc_only_args (init_state windows_vs))))
  = Some "cl.exe".
Proof.
  split; [reflexivity|].
  destruct (lone_explicit_path_is_ignored windows_bare msvc_only_args
              eq_refl eq_refl) as (I & _).
  destruct (lone_explicit_path_is_ignored windows_vs msvc_only_args
              eq_refl eq_refl) as (_ & _ & H).
  split; [exact I|].
  destruct (H (Some "cl.exe") eq_refl eq_refl) as (_ & C). exact C.
Defined.

(** ** What the targets carry *)

Lemma boundary_target_contents (w : World) (a : Args) (i : option string)
    (s : St) :
  Forall (fun d =>
    bd_verify_fp d = cfg_verify_fp (config s) /\
    bd_fast_math d = fast_math a /\
    match libs d with
    | Some _ =>
        build_llvm a = true /\
        cpp_paths d = [os_path_join w (build_path w) "clang/clang.cpp"] /\
        cu_path d = None /\
        bd_quick d = None
    | None =>
        cpp_paths d = map (os_path_join w (build_path w)) cpp_sources /\
        cu_path d = gpu_source w (cfg_cuda_path (config s)) /\
        bd_quick d = Some (quick a)
    end) (build_dlls (evs (boundary w a i s))).
Proof.
  unfold boundary. unfold_compile.
  run_cases; repeat (apply Forall_cons || apply Forall_nil);
    unfold clang_target, warp_target; simpl; repeat split.
Qed.

(** Every target a run gives to the driver carries [--verify_fp] and
    [--fast_math] of the command line.  A target with an extra-library list,
    the auxiliary one, has the one source [clang/clang.cpp], no GPU source
    and no [quick] argument; a target without, the primary one, has the
    sources [cpp_sources], the GPU source that goes with the GPU SDK found,
    and [--quick]. *)
Theorem what_the_targets_carry (w : World) (a : Args) (d : BuildDllArgs) :
  In (BuildDll d) (evs (run w a)) ->
  bd_verify_fp d = verify_fp a /\
  bd_fast_math d = fast_math a /\
  match libs d with
  | Some _ =>
      build_llvm a = true /\
      cpp_paths d = [os_path_join w (build_path w) "clang/clang.cpp"] /\
      cu_path d = None /\
      bd_quick d = None
  | None =>
      cpp_paths d = map (os_path_join w (build_path w)) cpp_sources /\
      cu_path d = gpu_source w (found_cuda w a) /\
      bd_quick d = Some (quick a)
  end.
Proof.
  intros Hin. apply run_build_dll in Hin. destruct Hin as (i & E & Hin).
  destruct (prelude_ok w a _ i E) as (_ & _ & Hv & Hc & _).
  pose proof (boundary_target_contents w a i
                (st (prelude w a (init_state w)))) as F.
  rewrite Forall_forall in F. specialize (F d Hin).
  rewrite Hv, Hc in F. exact F.
Qed.

Lemma what_the_targets_carry_witness :
  bd_fast_math (warp_target linux upper_debug_args config_py None) = true.
Proof.
  destruct (what_the_targets_carry linux_fresh upper_debug_args
              (warp_target linux upper_debug_args
                 (config (st (prelude linux_fresh upper_debug_args
                                (init_state linux_fresh)))) None))
    as (_ & H & _).
  - vm_compute. tauto.
  - exact H.
Defined.

(** ** The bootstrapper, when the working copy is not there *)

Lemma bootstrap_absent (w : World) (s : St) :
  fs s (llvm_project_path w) = false ->
  let p := llvm_project_path w in
  let bt := capitalize (cfg_mode (config s)) in
  firstn 2 (evs (bootstrap w s)) =
    [PathExists p; CloneFrom llvm_url p true "llvmorg-15.0.7" 1] /\
  length (filter is_clone (evs (bootstrap w s))) = 1%nat /\
  forallb (fun e => match e with RepoOpen _ => false | _ => true end)
          (evs (bootstrap w s)) = true /\
  (clone_from_ans w = Ok tt ->
   fs (st (bootstrap w s)) p = true /\
   In (CheckCall (cmake_gen w bt)) (evs (bootstrap w s))) /\
  (forall msg,
     clone_from_ans w = Raise msg ->
     res (bootstrap w s) = inl (Exception msg) /\
     evs (bootstrap w s) =
       [PathExists p; CloneFrom llvm_url p true "llvmorg-15.0.7" 1]).
Proof.
  intros E. unfold bootstrap, checkout, cmake_stages, check_call, call,
    fs_add, bind.
  simpl. rewrite E. simpl.
  run_cases;
    try match goal with
        | X : String.eqb ?x ?x = false |- _ =>
            rewrite String.eqb_refl in X; discriminate X
        end;
    repeat split; intros; try congruence; simpl; auto 10.
Qed.

(** When the working copy of the bundled LLVM is not there, the
    bootstrapper clones it, once, whatever happens next (the log of the
    invocation holds exactly one clone): a single-branch clone of depth 1
    of the
    tag [llvmorg-15.0.7] into [external/llvm-project], and [Repo(path)] is
    not called.  When the clone succeeds the copy is there and configure is
    started; when it fails its exception ends the bootstrap and no
    build-system stage is started. *)
Theorem absent_copy_is_cloned (w : World) (s : St) :
  fs s (llvm_project_path w) = false ->
  let p := llvm_project_path w in
  let bt := capitalize (cfg_mode (config s)) in
  firstn 2 (evs (bootstrap w s)) =
    [PathExists p; CloneFrom llvm_url p true "llvmorg-15.0.7" 1] /\
  length (filter is_clone (evs (bootstrap w s))) = 1%nat /\
  (forall q, ~ In (RepoOpen q) (evs (bootstrap w s))) /\
  (clone_from_ans w = Ok tt ->
   fs (st (bootstrap w s)) p = true /\
   In (CheckCall (cmake_gen w bt)) (evs (bootstrap w s))) /\
  (forall msg,
     clone_from_ans w = Raise msg ->
     res (bootstrap w s) = inl (Exception msg) /\
     check_calls (evs (bootstrap w s)) = []).
Proof.
  intros E p bt.
  destruct (bootstrap_absent w s E) as (H1 & H0 & H2 & H3 & H4).
  split; [exact H1|]. split; [exact H0|]. split; [|split; [exact H3|]].
  - intros q Hin. rewrite forallb_forall in H2. apply H2 in Hin.
    discriminate Hin.
  - intros msg Hm. destruct (H4 msg Hm) as (R & Ev). split; [exact R|].
    fold p in Ev. rewrite Ev. reflexivity.
Qed.

Lemma absent_copy_is_cloned_witness :
  fs (st (bootstrap linux (init_state linux))) "/src/external/llvm-project"
  = true.
Proof.
  destruct (absent_copy_is_cloned linux (init_state linux) eq_refl)
    as (_ & _ & _ & H & _).
  apply H. reflexivity.
Defined.

(** ** The compile phase comes after the bootstrap *)

Lemma bundled_done (w : World) (a : Args) (s : St) (i : option string) :
  build_llvm a = true ->
  res (bundled_llvm w a s) = inr i ->
  let bt := capitalize (cfg_mode (config s)) in
  check_calls (evs (bundled_llvm w a s)) = stages w bt /\
  check_call_ans w (cmake_gen w bt) = Ok tt /\
  check_call_ans w (cmake_build w bt) = Ok tt /\
  check_call_ans w (cmake_install w bt) = Ok tt /\
  fs (st (bundled_llvm w a s)) (llvm_project_path w) = true.
Proof.
  intros B. unfold_bootstrap. unfold fs_add. rewrite B. simpl.
  run_cases; intros H; try discriminate H;
    try match goal with
        | X : String.eqb ?x ?x = false |- _ =>
            rewrite String.eqb_refl in X; discriminate X
        end;
    repeat match goal with u : unit |- _ => destruct u end;
    repeat split; try assumption;
    match goal with
    | X : negb (fs s _) = false |- _ =>
        apply negb_false_iff in X; exact X
    end.
Qed.

Lemma prelude_no_compile_event (w : World) (a : Args) (s : St) :
  forallb (fun e => match e with Walk _ | BuildDll _ => false | _ => true end)
          (evs (prelude w a s)) = true.
Proof.
  unfold prelude. rewrite evs_bind, forallb_app.
  apply andb_true_iff. split.
  - unfold_toolchains. run_cases; reflexivity.
  - destruct (res (toolchains w a s)); [reflexivity|].
    unfold_bootstrap. run_cases; reflexivity.
Qed.

Lemma boundary_walks (w : World) (a : Args) (i : option string) (s : St)
    (p : string) :
  In (Walk p) (evs (boundary w a i s)) ->
  exists ip, i = Some ip /\ p = os_path_join w ip "lib".
Proof.
  unfold boundary. unfold_compile.
  run_cases; intros Hin; split_in Hin; injection Hin as <-; eauto.
Qed.

(** With [--build_llvm], the compile phase starts only when the bootstrap
    is complete: if the run lists a directory or gives a target to the
    driver, then configure, build and install were all started and all
    succeeded, and the working copy is there.  The directory listed is the
    [lib] directory of the very prefix the configure stage received as
    [CMAKE_INSTALL_PREFIX], its last argument. *)
Theorem compile_phase_follows_bootstrap (w : World) (a : Args) (e : event) :
  build_llvm a = true ->
  In e (evs (run w a)) ->
  match e with Walk _ | BuildDll _ => True | _ => False end ->
  let bt := capitalize (mode a) in
  check_calls (evs (run w a)) = stages w bt /\
  check_call_ans w (cmake_gen w bt) = Ok tt /\
  check_call_ans w (cmake_build w bt) = Ok tt /\
  check_call_ans w (cmake_install w bt) = Ok tt /\
  fs (st (prelude w a (init_state w))) (llvm_project_path w) = true /\
  last (cmake_gen w bt) EmptyString =
    ("CMAKE_INSTALL_PREFIX=" ++ llvm_install_path w bt)%string /\
  (forall p, e = Walk p ->
             p = os_path_join w (llvm_install_path w bt) "lib").
Proof.
  intros B Hin He bt.
  assert (Hpre : ~ In e (evs (prelude w a (init_state w)))).
  { intros X. pose proof (prelude_no_compile_event w a (init_state w)) as F.
    rewrite forallb_forall in F. apply F in X.
    destruct e; try contradiction; discriminate X. }
  destruct (run_phases w a).
  - exfalso. apply Hpre. unfold prelude. rewrite evs_bind, Hres1, app_nil_r.
    now rewrite <- Hevs.
  - exfalso. apply Hpre. unfold prelude. subst s1.
    rewrite evs_bind, Hres1, <- Hevs. exact Hin.
  - subst s1. destruct (toolchains_ok w a _ Hres1) as (_ & Hm & _).
    destruct (bundled_done w a _ installed B Hres2) as (C & G1 & G2 & G3 & F).
    rewrite Hm in C, G1, G2, G3. fold bt in C, G1, G2, G3.
    rewrite Hevs, !check_calls_app, toolchains_check_calls,
      boundary_check_calls, app_nil_r. simpl.
    rewrite Hpst, Hs2.
    repeat split; try assumption.
    intros p ->.
    assert (Hb : In (Walk p) (evs (boundary w a installed s2))).
    { rewrite Hevs, app_assoc in Hin. apply in_app_or in Hin.
      destruct Hin as [Hin|Hin]; [|exact Hin].
      exfalso. apply Hpre. unfold prelude.
      now rewrite evs_bind, Hres1. }
    destruct (boundary_walks w a installed s2 p Hb) as (ip & -> & ->).
    apply bundled_ok in Hres2. rewrite B, Hm in Hres2.
    now injection Hres2 as ->.
Qed.

Lemma compile_phase_follows_bootstrap_witness :
  check_calls (evs (run linux_llvm llvm_args)) = stages linux_llvm "Release".
Proof.
  apply (compile_phase_follows_bootstrap linux_llvm llvm_args
           (Walk "/src/external/llvm-project/out/install/Release/lib")
           eq_refl).
  - vm_compute. tauto.
  - exact I.
Defined.

(** ** The build type *)

Lemma ascii_upper_lower (c : ascii) : ascii_upper (ascii_lower c) = ascii_upper c.
Proof. destruct c as [[] [] [] [] [] [] [] []]; reflexivity. Qed.

Lemma ascii_lower_lower (c : ascii) : ascii_lower (ascii_lower c) = ascii_lower c.
Proof. destruct c as [[] [] [] [] [] [] [] []]; reflexivity. Qed.

Lemma ascii_upper_upper (c : ascii) : ascii_upper (ascii_upper c) = ascii_upper c.
Proof. destruct c as [[] [] [] [] [] [] [] []]; reflexivity. Qed.

Lemma str_lower_lower (s : string) : str_lower (str_lower s) = str_lower s.
Proof.
  induction s as [|c s IH]; simpl; [reflexivity|].
  now rewrite ascii_lower_lower, IH.
Qed.

Lemma capitalize_str_lower (s : string) : capitalize (str_lower s) = capitalize s.
Proof.
  destruct s as [|c s]; [reflexivity|].
  unfold capitalize. simpl.
  now rewrite ascii_upper_lower, str_lower_lower.
Qed.

(** For modes written in ASCII, where [capitalize] is [str.capitalize()]:
    the build type does not see the letter case of the mode.  Two modes
    that differ only in case ([debug], [Debug], [DEBUG]) give the same build
    type, hence the same build and install directories and the same three
    command lines; and capitalizing twice changes nothing, so a mode that is
    already a build type names itself. *)
Theorem build_type_ignores_case (w : World) (m m' : string) :
  ascii_only m = true ->
  ascii_only m' = true ->
  str_lower m = str_lower m' ->
  capitalize m = capitalize m' /\
  stages w (capitalize m) = stages w (capitalize m') /\
  llvm_install_path w (capitalize m) = llvm_install_path w (capitalize m') /\
  capitalize (capitalize m) = capitalize m /\
  String.length (capitalize m) = String.length m.
Proof.
  intros _ _ H.
  assert (E : capitalize m = capitalize m')
    by now rewrite <- (capitalize_str_lower m), H, capitalize_str_lower.
  rewrite E. repeat split.
  - destruct m' as [|c r]; [reflexivity|]. unfold capitalize.
    now rewrite ascii_upper_upper, str_lower_lower.
  - rewrite <- E. destruct m as [|c r]; [reflexivity|]. simpl. f_equal.
    clear. induction r as [|c r IH]; simpl; [reflexivity|]. now rewrite IH.
Qed.

Lemma build_type_ignores_case_witness :
  stages linux (capitalize "DEBUG") = stages linux (capitalize "debug").
Proof.
  apply (build_type_ignores_case linux "DEBUG" "debug"); reflexivity.
Defined.

(** ** The artifacts *)

Lemma boundary_artifacts (w : World) (a : Args) (i : option string) (s : St) :
  Forall (fun d =>
    dll_path d =
      os_path_join w (build_path w)
        (match libs d with
         | Some _ => "bin/clang."
         | None => "bin/warp."
         end ++ dll_ext w)%string)
    (build_dlls (evs (boundary w a i s))).
Proof.
  unfold boundary. unfold_compile.
  run_cases; repeat (apply Forall_cons || apply Forall_nil); reflexivity.
Qed.

(** Every target is written under [build_path] as [bin/clang.<ext>] (the
    auxiliary one) or [bin/warp.<ext>] (the primary one), and both of a run
    have the same extension: [dll] exactly on [win32], [dylib] exactly on
    [darwin], and [so] on every other platform, known or not. *)
Theorem artifact_names (w : World) (a : Args) (d : BuildDllArgs) :
  In (BuildDll d) (evs (run w a)) ->
  dll_path d =
    os_path_join w (build_path w)
      (match libs d with
       | Some _ => "bin/clang."
       | None => "bin/warp."
       end ++ dll_ext w)%string /\
  (dll_ext w = "dll" <-> sys_platform w = "win32") /\
  (dll_ext w = "dylib" <-> sys_platform w = "darwin") /\
  (dll_ext w = "so" <->
   sys_platform w <> "win32" /\ sys_platform w <> "darwin").
Proof.
  intros Hin. apply run_build_dll in Hin. destruct Hin as (i & _ & Hin).
  pose proof (boundary_artifacts w a i (st (prelude w a (init_state w)))) as F.
  rewrite Forall_forall in F. split; [exact (F d Hin)|].
  unfold dll_ext.
  destruct (String.eqb_spec (sys_platform w) "win32") as [E|E];
    [|destruct (String.eqb_spec (sys_platform w) "darwin") as [E'|E']];
    rewrite ?E, ?E'; repeat split; try discriminate; try tauto;
    try (intros X; congruence); try (intros (X & Y); congruence).
Qed.

Lemma artifact_names_witness :
  dll_path (warp_target darwin_with_cuda default_args config_py None)
  = "/src/warp/bin/warp.dylib".
Proof.
  destruct (artifact_names darwin_with_cuda default_args
              (warp_target darwin_with_cuda default_args
                 (config (st (prelude darwin_with_cuda default_args
                                (init_state darwin_with_cuda)))) None))
    as (H & _).
  - vm_compute. tauto.
  - exact H.
Defined.
